(** * ai-api/app.py: the sentiment service and its recommendation selector

    A shallow embedding of [src/ai-api/app.py].  The module has two pieces:
    the [/predict] request handler, which validates the request, calls the
    pretrained sentiment classifier and serialises the answer, and
    [get_personalized_recommendation], the decision table that turns a
    (label, confidence, text) triple into a message and four tips.

    Python values are modelled as the interpreter has them: a [str] is a
    sequence of Unicode code points, a [float] is an IEEE 754 binary64 value
    ([spec_float] of the Standard Library), a [dict] with string keys is a
    finite map.  The handler is written in a small monad with early return,
    exceptions and a record of the calls made to the classifier.  The
    selector is given twice: as a function of its three arguments, and
    statement by statement over the frame it runs in (its local variables
    and the module's globals), which is where what it reads and writes can
    be stated; the two are proved to agree.

    What belongs to the interpreter or to a library is taken as given:
    [str.lower] (a parameter), the classifier (a function from a text to a
    label and a score, or to an exception) and the JSON parser of the
    framework (a request carries the outcome of parsing its body).  Logging,
    CORS headers, the health check and the 404/500 error pages are left out. *)

From Stdlib Require Import ZArith NArith String Ascii SpecFloat Lia.
From stdpp Require Import gmap list.

Set Warnings "-register-all".
Local Open Scope N_scope.

(** ** Python strings *)

(** A Python [str]: the list of its code points. *)
Abbreviation str := (list N).

Module Utf8.

(** The source file is UTF-8; a literal of this development is read the same
    way, so that an emoji is one code point (or several, joined), as it is in
    the running program. *)
Definition cont (b : N) : N := N.land b 0x3F.

Fixpoint decode (bs : list N) : str :=
  match bs with
  | [] => []
  | b0 :: r0 =>
    if b0 <? 0x80 then b0 :: decode r0
    else if b0 <? 0xE0 then
      match r0 with
      | b1 :: r1 =>
          N.lor (N.shiftl (N.land b0 0x1F) 6) (cont b1) :: decode r1
      | _ => []
      end
    else if b0 <? 0xF0 then
      match r0 with
      | b1 :: b2 :: r2 =>
          N.lor (N.shiftl (N.land b0 0x0F) 12)
            (N.lor (N.shiftl (cont b1) 6) (cont b2)) :: decode r2
      | _ => []
      end
    else
      match r0 with
      | b1 :: b2 :: b3 :: r3 =>
          N.lor (N.shiftl (N.land b0 0x07) 18)
            (N.lor (N.shiftl (cont b1) 12)
               (N.lor (N.shiftl (cont b2) 6) (cont b3))) :: decode r3
      | _ => []
      end
  end.

Definition bytes (s : string) : list N :=
  List.map N_of_ascii (list_ascii_of_string s).

End Utf8.

(** [lit "..."] is the Python string written ["..."] in the source. *)
Definition lit (s : string) : str := Utf8.decode (Utf8.bytes s).

(** [w in t] on strings: [w] occurs in [t] as a contiguous run. *)
Fixpoint startswith (t w : str) {struct w} : bool :=
  match w, t with
  | [], _ => true
  | _ :: _, [] => false
  | a :: w', b :: t' => (a =? b) && startswith t' w'
  end.

Fixpoint str_in (w t : str) : bool :=
  startswith t w ||
  match t with
  | [] => false
  | _ :: t' => str_in w t'
  end.

(** What [w in t] decides: [w] is a contiguous run of [t]. *)
Definition occurs (w t : str) : Prop := ∃ pre post, t = pre ++ w ++ post.

(** One of the words [ws] occurs in [t]. *)
Definition mentions (t : str) (ws : list str) : Prop :=
  ∃ w, In w ws ∧ occurs w t.

(** The builtin [any] over a generator [p(x) for x in l]. *)
Definition any {A} (p : A → bool) (l : list A) : bool := existsb p l.

(** [str.strip()] removes leading and trailing whitespace; the whitespace
    code points are those of CPython's [_PyUnicode_IsWhitespace]. *)
Definition isspace (c : N) : bool :=
  ((0x09 <=? c) && (c <=? 0x0D)) || ((0x1C <=? c) && (c <=? 0x20))
  || (c =? 0x85) || (c =? 0xA0) || (c =? 0x1680)
  || ((0x2000 <=? c) && (c <=? 0x200A))
  || (c =? 0x2028) || (c =? 0x2029) || (c =? 0x202F) || (c =? 0x205F)
  || (c =? 0x3000).

Fixpoint lstrip (s : str) : str :=
  match s with
  | [] => []
  | c :: s' => if isspace c then lstrip s' else s
  end.

Definition rstrip (s : str) : str := rev (lstrip (rev s)).

Definition strip (s : str) : str := rstrip (lstrip s).

(** Nothing but whitespace, the empty string included. *)
Definition blank (s : str) : Prop := Forall (λ c, isspace c = true) s.

(** ASCII case folding: what [str.lower()] does on an ASCII string.  Used to
    run the model on concrete inputs. *)
Definition ascii_lower (s : str) : str :=
  List.map (fun c => if (0x41 <=? c) && (c <=? 0x5A) then c + 0x20 else c) s.

(** ** Python floats *)

(** [x > y] on floats; false as soon as one side is a NaN. *)
Definition float_gt (x y : spec_float) : bool := SFltb y x.

(** [x == y] on floats: [0.0 == -0.0], and a NaN equals nothing. *)
Definition float_eq (x y : spec_float) : bool := SFeqb x y.

(** The literal [0.9]: the nearest binary64 value, 0x1.ccccccccccccdp-1. *)
Definition float_0_9 : spec_float := S754_finite false 8106479329266893 (-53).

(** ** The recommendation selector *)

(** The dictionary [{'message': ..., 'tips': ...}] the selector returns. *)
Record recommendation := Recommendation {
  message : str;
  tips : list str
}.

Section Selector.

(** [str.lower()] follows the Unicode case-mapping tables of the
    interpreter, which are not part of this repository: the selector is
    parametric in it. *)
Variable lower : str → str.

Definition get_personalized_recommendation
    (sentiment : str) (confidence : spec_float) (text : str) : recommendation :=
  let text_lower := lower text in
  if decide (sentiment = lit "POSITIVE") then
    if float_gt confidence float_0_9 then
      {| message := lit "🌟 You're radiating positive energy! This is wonderful to see.";
         tips := [ lit "🎵 Listen to your favorite uplifting music";
                   lit "📞 Share this positive energy with a friend";
                   lit "📝 Write down what made you feel good today";
                   lit "🌱 Use this momentum for a creative project" ] |}
    else
      {| message := lit "😊 You seem to be feeling good! Let's build on these positive vibes.";
         tips := [ lit "🚶‍♀️ Take a pleasant walk outside";
                   lit "📖 Read something inspiring";
                   lit "🧘‍♀️ Practice gratitude meditation";
                   lit "💪 Try a fun physical activity" ] |}
  else if decide (sentiment = lit "NEGATIVE") then
    if any (fun word => str_in word text_lower)
           [lit "anxious"; lit "anxiety"; lit "worried"; lit "stress"] then
      {| message := lit "😌 I understand you're feeling anxious. Remember, this feeling will pass.";
         tips := [ lit "🫁 Try deep breathing exercises (4-7-8 technique)";
                   lit "🧘‍♀️ Practice a 5-minute mindfulness meditation";
                   lit "📱 Use a calming app like Headspace or Calm";
                   lit "☎️ Consider talking to a trusted friend or counselor" ] |}
    else if any (fun word => str_in word text_lower)
                [lit "sad"; lit "depressed"; lit "down"; lit "upset"] then
      {| message := lit "💙 I hear that you're going through a tough time. Your feelings are valid.";
         tips := [ lit "🌅 Try to get some natural sunlight";
                   lit "🎨 Express yourself through art, writing, or music";
                   lit "🏃‍♀️ Light exercise can help boost mood";
                   lit "🤗 Reach out to someone who cares about you" ] |}
    else if any (fun word => str_in word text_lower)
                [lit "angry"; lit "mad"; lit "frustrated"; lit "irritated"] then
      {| message := lit "😤 It sounds like you're feeling frustrated. Let's work on channeling this energy.";
         tips := [ lit "💨 Take 10 deep breaths before reacting";
                   lit "🏋️‍♀️ Try physical exercise to release tension";
                   lit "📝 Write down your feelings in a journal";
                   lit "🎯 Focus on what you can control in the situation" ] |}
    else
      {| message := lit "💭 I sense you might be going through something difficult. Remember, it's okay to not be okay.";
         tips := [ lit "🛁 Take a warm bath or shower";
                   lit "📚 Read a comforting book or watch a feel-good movie";
                   lit "🍵 Make yourself a warm drink";
                   lit "💬 Consider talking to a mental health professional" ] |}
  else
    {| message := lit "🤔 Your feelings seem mixed right now, which is completely normal.";
       tips := [ lit "📓 Try journaling to explore your thoughts";
                 lit "🚶‍♀️ Take a mindful walk to clear your head";
                 lit "🎵 Listen to music that resonates with your mood";
                 lit "🧘‍♀️ Try a brief meditation or breathing exercise" ] |}.

End Selector.

(** ** JSON-compatible Python values *)

(** What [json.loads] produces and [jsonify] serialises. *)
Inductive value : Type :=
  | VNone
  | VBool (b : bool)
  | VInt (n : Z)
  | VFloat (x : spec_float)
  | VStr (s : str)
  | VList (l : list value)
  | VDict (d : gmap str value).

(** [bool(v)]: the truth value tested by [if not v]. *)
Definition truthy (v : value) : bool :=
  match v with
  | VNone => false
  | VBool b => b
  | VInt n => negb (n =? 0)%Z
  | VFloat x => negb (float_eq x (S754_zero false))
  | VStr s => negb (Nat.eqb (length s) 0)
  | VList l => negb (Nat.eqb (length l) 0)
  | VDict d => negb (Nat.eqb (size d) 0)
  end.

Definition type_name (v : value) : str :=
  match v with
  | VNone => lit "NoneType"
  | VBool _ => lit "bool"
  | VInt _ => lit "int"
  | VFloat _ => lit "float"
  | VStr _ => lit "str"
  | VList _ => lit "list"
  | VDict _ => lit "dict"
  end.

(** [str(e)] of the [AttributeError] raised by [v.attr] when the type of [v]
    has no such attribute. *)
Definition attribute_error (v : value) (attr : string) : str :=
  lit "'" ++ type_name v ++ lit "' object has no attribute '" ++ lit attr ++ lit "'".

(** ** Requests, responses and the handler monad *)

(** The route is registered for [POST] and [OPTIONS] only. *)
Inductive http_method := POST | OPTIONS.

Global Instance http_method_eq_dec : EqDecision http_method.
Proof. solve_decision. Defined.

(** A request as the handler sees it: its method and the outcome of
    [request.get_json(force=True)], either the parsed body or the message of
    the exception raised for a body that is not JSON. *)
Record request := Request {
  method : http_method;
  get_json : str + value
}.

Record response := Response {
  body : value;
  status : N
}.

(** [jsonify(d)] and [jsonify(d), code]. *)
Definition jsonify (d : gmap str value) : response :=
  {| body := VDict d; status := 200 |}.

Definition with_status (r : response) (code : N) : response :=
  {| body := body r; status := code |}.

(** The classifier: for a text, either the exception it raises (by its message)
    or the label and score of [result[0]]. *)
Inductive analysis :=
  | Failed (e : str)
  | Labelled (label : str) (score : spec_float).

(** The one effect of the handler that is visible from outside (logging
    apart): a call to the classifier. *)
Inductive event := Analyze (text : str).

(** A statement of the handler's body either falls through with a value,
    returns a response, or raises; the calls made so far are recorded. *)
Inductive outcome (A : Type) : Type :=
  | Next (a : A)
  | Return (r : response)
  | Raise (e : str).
Arguments Next {A} a.
Arguments Return {A} r.
Arguments Raise {A} e.

Definition handler (A : Type) : Type := (list event * outcome A)%type.

Global Instance handler_ret : MRet handler := λ A a, ([], Next a).

Global Instance handler_bind : MBind handler := λ A B k m,
  match m with
  | (t, Next a) => let '(t', o) := k a in (t ++ t', o)
  | (t, Return r) => (t, Return r)
  | (t, Raise e) => (t, Raise e)
  end.

Definition return_ {A} (r : response) : handler A := ([], Return r).
Definition raise {A} (e : str) : handler A := ([], Raise e).

(** [try: body except Exception as e: return h(str(e))], for a body all of
    whose paths return. *)
Definition try_except (m : handler Empty_set) (h : str → response)
    : list event * response :=
  match m with
  | (t, Next a) => match a with end
  | (t, Return r) => (t, r)
  | (t, Raise e) => (t, h e)
  end.

(** [data.get(key, default)]. *)
Definition get (data : value) (key : str) (dflt : value) : handler value :=
  match data with
  | VDict d => mret (default dflt (d !! key))
  | _ => raise (attribute_error data "get")
  end.

(** [v.strip()]: only a [str] has the method. *)
Definition strip_method (v : value) : handler str :=
  match v with
  | VStr s => mret (strip s)
  | _ => raise (attribute_error v "strip")
  end.

Definition call (f : str → analysis) (text : str) : handler (str * spec_float) :=
  ([Analyze text],
   match f text with
   | Failed e => Raise e
   | Labelled label score => Next (label, score)
   end).

(** ** The [/predict] handler *)

Section Service.

Variable lower : str → str.

(** The module-level [sentiment_analyzer]: [None] when loading the model
    raised at import time, a pipeline object (which is truthy) otherwise. *)
Variable sentiment_analyzer : option (str → analysis).

Definition predict (req : request) : list event * response :=
  if decide (method req = OPTIONS) then
    ([], jsonify {[ lit "status" := VStr (lit "OK") ]})
  else
    try_except
      (data ← match get_json req with
              | inl e => raise e
              | inr data => mret data
              end;
       (if negb (truthy data) then
          return_ (with_status (jsonify
            {[ lit "error" := VStr (lit "No JSON data provided");
               lit "status" := VStr (lit "error") ]}) 400)
        else mret ());;
       v ← get data (lit "text") (VStr (lit ""));
       text ← strip_method v;
       (if negb (truthy (VStr text)) then
          return_ (with_status (jsonify
            {[ lit "error" := VStr (lit "No text provided or text is empty");
               lit "status" := VStr (lit "error") ]}) 400)
        else mret ());;
       (if Nat.ltb 1000 (length text) then
          return_ (with_status (jsonify
            {[ lit "error" := VStr (lit "Text too long. Please keep it under 1000 characters.");
               lit "status" := VStr (lit "error") ]}) 400)
        else mret ());;
       match sentiment_analyzer with
       | None =>
          return_ (with_status (jsonify
            {[ lit "error" := VStr (lit "Sentiment analysis model not available");
               lit "status" := VStr (lit "error") ]}) 500)
       | Some analyzer =>
          '(sentiment, score) ← call analyzer text;
          let recommendations :=
            get_personalized_recommendation lower sentiment score text in
          let response_data : gmap str value :=
            {[ lit "sentiment" := VStr sentiment;
               lit "recommendation" := VStr (message recommendations);
               lit "confidence_score" := VFloat score;
               lit "additional_tips" := VList (VStr <$> tips recommendations);
               lit "status" := VStr (lit "success") ]} in
          return_ (jsonify response_data)
       end)
      (λ e, with_status (jsonify
            {[ lit "error" := VStr (lit "Internal server error: " ++ e);
               lit "status" := VStr (lit "error") ]}) 500).

End Service.

(** The shape of every error answer of the module:
    [jsonify({"error": msg, "status": "error"}), code]. *)
Definition error_response (msg : string) (code : N) : response :=
  with_status (jsonify {[ lit "error" := VStr (lit msg);
                          lit "status" := VStr (lit "error") ]}) code.

(** A [POST] whose body parsed to the JSON value [data]. *)
Definition post (data : value) : request :=
  {| method := POST; get_json := inr data |}.

(** ** The selector in its frame *)

(** The identifiers of the module: the parameters and local variables of
    [get_personalized_recommendation], and the names bound at module level. *)
Module Name.

Inductive t :=
  | sentiment | confidence | text | text_lower | message | tips
  | Flask | request | jsonify | CORS | pipeline | logging | app | logger
  | sentiment_analyzer | health_check | predict | get_personalized_recommendation
  | not_found | internal_error.

Definition index (x : t) : nat :=
  match x with
  | sentiment => 0 | confidence => 1 | text => 2 | text_lower => 3
  | message => 4 | tips => 5
  | Flask => 6 | request => 7 | jsonify => 8 | CORS => 9 | pipeline => 10
  | logging => 11 | app => 12 | logger => 13 | sentiment_analyzer => 14
  | health_check => 15 | predict => 16 | get_personalized_recommendation => 17
  | not_found => 18 | internal_error => 19
  end.

Definition eqb (x y : t) : bool := Nat.eqb (index x) (index y).

End Name.

(** The body of the selector statement by statement, over the frame the
    interpreter runs it in: its local variables and the module's globals.  A
    name is read where Python finds it; [any], [in], [==], [>] and
    [str.lower] are the builtins (the module binds none of these names). *)
Module Frame.

(** The exceptions a call can end in.  [Unsupported] is outside Python: it
    marks a global that is not a plain value being used as one. *)
Inductive exn :=
  | UnboundLocalError (x : Name.t)
  | NameError (x : Name.t)
  | AttributeError (e : str)
  | TypeError (e : str)
  | Unsupported (x : Name.t).

(** The names the compiler makes local to the function: its parameters and
    the targets of its assignments. *)
Definition is_local (x : Name.t) : bool :=
  match x with
  | Name.sentiment | Name.confidence | Name.text
  | Name.text_lower | Name.message | Name.tips => true
  | _ => false
  end.

Section Body.

(** What the module's globals hold: functions, modules, the application
    object and so on; nothing is assumed of them. *)
Context {object : Type}.

Record frame := Build {
  locals : Name.t → option value;
  globals : Name.t → option object
}.

Inductive result (A : Type) :=
  | Ok (a : A) (fr : frame)
  | Exc (e : exn).
Arguments Ok {A} a fr.
Arguments Exc {A} e.

Definition py (A : Type) : Type := frame → result A.

Global Instance py_ret : MRet py := λ A a fr, Ok a fr.

Global Instance py_bind : MBind py := λ A B k m fr,
  match m fr with
  | Ok a fr' => k a fr'
  | Exc e => Exc e
  end.

Definition raise {A} (e : exn) : py A := λ fr, Exc e.

(** How a module-level object is seen when it is a plain value. *)
Variable data : object → option value.

Variable lower : str → str.

(** Reading a name: a local one from the frame's locals, any other from the
    module's globals. *)
Definition load (x : Name.t) : py value := λ fr,
  if is_local x then
    match locals fr x with
    | Some v => Ok v fr
    | None => Exc (UnboundLocalError x)
    end
  else
    match globals fr x with
    | Some o =>
        match data o with
        | Some v => Ok v fr
        | None => Exc (Unsupported x)
        end
    | None => Exc (NameError x)
    end.

(** [x = v]: the function has no [global] statement, so every assignment
    binds a local. *)
Definition store (x : Name.t) (v : value) : py () := λ fr,
  Ok () (Build (λ y, if Name.eqb y x then Some v else locals fr y) (globals fr)).

(** [v.lower()]. *)
Definition lower_method (v : value) : py value :=
  match v with
  | VStr s => mret (VStr (lower s))
  | _ => raise (AttributeError (attribute_error v "lower"))
  end.

(** [v == 'literal']: false for a value that is not a string. *)
Definition eq_str (v : value) (s : str) : bool :=
  match v with
  | VStr s' => bool_decide (s' = s)
  | _ => false
  end.

(** [v > 0.9]: an integer is above 0.9 from 1 on, [True] is 1. *)
Definition gt_0_9 (v : value) : py bool :=
  match v with
  | VFloat c => mret (float_gt c float_0_9)
  | VInt n => mret (1 <=? n)%Z
  | VBool b => mret b
  | _ => raise (TypeError (lit "'>' not supported between instances of '"
                           ++ type_name v ++ lit "' and 'float'"))
  end.

(** [word in v]. *)
Definition contains (word : str) (v : value) : py bool :=
  match v with
  | VStr t => mret (str_in word t)
  | VList l => mret (existsb (λ x, eq_str x word) l)
  | VDict d => mret (bool_decide (is_Some (d !! word)))
  | _ => raise (TypeError (lit "argument of type '" ++ type_name v
                           ++ lit "' is not iterable"))
  end.

(** [any(test(word) for word in words)]: the tests run in order until one is
    true; [word] is the generator's own variable. *)
Fixpoint any_of (test : str → py bool) (words : list str) : py bool :=
  match words with
  | [] => mret false
  | word :: rest => b ← test word; if (b : bool) then mret true else any_of test rest
  end.

(** [word in text_lower], with [text_lower] read from the enclosing frame. *)
Definition word_in_text_lower (word : str) : py bool :=
  text_lower ← load Name.text_lower; contains word text_lower.

Definition body : py value :=
  text ← load Name.text;
  text_lower ← lower_method text;
  store Name.text_lower text_lower;;
  sentiment ← load Name.sentiment;
  (if eq_str sentiment (lit "POSITIVE") then
     confidence ← load Name.confidence;
     high ← gt_0_9 confidence;
     if (high : bool) then
       store Name.message (VStr (lit "🌟 You're radiating positive energy! This is wonderful to see."));;
       store Name.tips (VList [ VStr (lit "🎵 Listen to your favorite uplifting music");
                                VStr (lit "📞 Share this positive energy with a friend");
                                VStr (lit "📝 Write down what made you feel good today");
                                VStr (lit "🌱 Use this momentum for a creative project") ])
     else
       store Name.message (VStr (lit "😊 You seem to be feeling good! Let's build on these positive vibes."));;
       store Name.tips (VList [ VStr (lit "🚶‍♀️ Take a pleasant walk outside");
                                VStr (lit "📖 Read something inspiring");
                                VStr (lit "🧘‍♀️ Practice gratitude meditation");
                                VStr (lit "💪 Try a fun physical activity") ])
   else
     sentiment ← load Name.sentiment;
     if eq_str sentiment (lit "NEGATIVE") then
       anxious ← any_of word_in_text_lower
                   [lit "anxious"; lit "anxiety"; lit "worried"; lit "stress"];
       if (anxious : bool) then
         store Name.message (VStr (lit "😌 I understand you're feeling anxious. Remember, this feeling will pass."));;
         store Name.tips (VList [ VStr (lit "🫁 Try deep breathing exercises (4-7-8 technique)");
                                  VStr (lit "🧘‍♀️ Practice a 5-minute mindfulness meditation");
                                  VStr (lit "📱 Use a calming app like Headspace or Calm");
                                  VStr (lit "☎️ Consider talking to a trusted friend or counselor") ])
       else
         sad ← any_of word_in_text_lower
                 [lit "sad"; lit "depressed"; lit "down"; lit "upset"];
         if (sad : bool) then
           store Name.message (VStr (lit "💙 I hear that you're going through a tough time. Your feelings are valid."));;
           store Name.tips (VList [ VStr (lit "🌅 Try to get some natural sunlight");
                                    VStr (lit "🎨 Express yourself through art, writing, or music");
                                    VStr (lit "🏃‍♀️ Light exercise can help boost mood");
                                    VStr (lit "🤗 Reach out to someone who cares about you") ])
         else
           angry ← any_of word_in_text_lower
                     [lit "angry"; lit "mad"; lit "frustrated"; lit "irritated"];
           if (angry : bool) then
             store Name.message (VStr (lit "😤 It sounds like you're feeling frustrated. Let's work on channeling this energy."));;
             store Name.tips (VList [ VStr (lit "💨 Take 10 deep breaths before reacting");
                                      VStr (lit "🏋️‍♀️ Try physical exercise to release tension");
                                      VStr (lit "📝 Write down your feelings in a journal");
                                      VStr (lit "🎯 Focus on what you can control in the situation") ])
           else
             store Name.message (VStr (lit "💭 I sense you might be going through something difficult. Remember, it's okay to not be okay."));;
             store Name.tips (VList [ VStr (lit "🛁 Take a warm bath or shower");
                                      VStr (lit "📚 Read a comforting book or watch a feel-good movie");
                                      VStr (lit "🍵 Make yourself a warm drink");
                                      VStr (lit "💬 Consider talking to a mental health professional") ])
     else
       store Name.message (VStr (lit "🤔 Your feelings seem mixed right now, which is completely normal."));;
       store Name.tips (VList [ VStr (lit "📓 Try journaling to explore your thoughts");
                                VStr (lit "🚶‍♀️ Take a mindful walk to clear your head");
                                VStr (lit "🎵 Listen to music that resonates with your mood");
                                VStr (lit "🧘‍♀️ Try a brief meditation or breathing exercise") ]));;
  message ← load Name.message;
  tips ← load Name.tips;
  mret (VDict {[ lit "message" := message; lit "tips" := tips ]}).

(** A call: a fresh frame holding the three arguments, over the module's
    globals [G]; it gives the returned value (or the exception) and the
    globals as the call leaves them. *)
Definition get_personalized_recommendation
    (G : Name.t → option object) (sentiment confidence text : value)
    : exn + value * (Name.t → option object) :=
  let args (x : Name.t) :=
    match x with
    | Name.sentiment => Some sentiment
    | Name.confidence => Some confidence
    | Name.text => Some text
    | _ => None
    end in
  match body (Build args G) with
  | Ok v fr => inr (v, globals fr)
  | Exc e => inl e
  end.

End Body.

Arguments frame object : clear implicits.
Arguments result object A : clear implicits.
Arguments py object A : clear implicits.
Arguments Ok {object A} a fr.
Arguments Exc {object A} e.

End Frame.

(** The dictionary the selector returns, as a value. *)
Definition recommendation_value (r : recommendation) : value :=
  VDict {[ lit "message" := VStr (message r); lit "tips" := VList (VStr <$> tips r) ]}.

(** ** Sample inputs *)

(** A classifier that finds everything very positive (score 0.95). *)
Definition cheerful (text : str) : analysis :=
  Labelled (lit "POSITIVE") (S754_finite false 8556839292003942 (-53)).

(** 1001 letters. *)
Definition long_text : str := repeat 0x61 1001.

(** A classifier that raises on every text. *)
Definition broken (text : str) : analysis := Failed (lit "out of memory").

(** ** The rest of the module *)

(** Lines 15-20: the pipeline is built when the module is imported; if that
    raises, the global is [None].  [pipeline] is the outcome of the call
    [pipeline("sentiment-analysis")]. *)
Definition load_sentiment_analyzer (pipeline : str + (str → analysis))
    : option (str → analysis) :=
  match pipeline with
  | inl e => None
  | inr f => Some f
  end.

Definition health_check : response :=
  jsonify
    {[ lit "status" := VStr (lit "AI Mental Health API is running!");
       lit "version" := VStr (lit "1.0");
       lit "endpoints" :=
         VDict {[ lit "predict" := VStr (lit "/predict (POST)");
                  lit "health" := VStr (lit "/ (GET)") ]} ]}.

(** The two error handlers registered with the application; neither looks at
    the error it is given. *)
Definition not_found (error : str) : response :=
  with_status (jsonify
    {[ lit "error" := VStr (lit "Endpoint not found");
       lit "available_endpoints" := VList [VStr (lit "/"); VStr (lit "/predict")];
       lit "status" := VStr (lit "error") ]}) 404.

Definition internal_error (error : str) : response :=
  with_status (jsonify
    {[ lit "error" := VStr (lit "Internal server error");
       lit "status" := VStr (lit "error") ]}) 500.

(** ** Vocabulary for the handler's answers *)

(** The answer of the [except] clause of [predict] for an exception whose
    message is [e]. *)
Definition exception_response (e : str) : response :=
  with_status (jsonify
    {[ lit "error" := VStr (lit "Internal server error: " ++ e);
       lit "status" := VStr (lit "error") ]}) 500.

(** The answer of [predict] for a text the classifier labelled. *)
Definition success_response (lower : str → str)
    (sentiment : str) (score : spec_float) (text : str) : response :=
  let recommendations := get_personalized_recommendation lower sentiment score text in
  jsonify
    {[ lit "sentiment" := VStr sentiment;
       lit "recommendation" := VStr (message recommendations);
       lit "confidence_score" := VFloat score;
       lit "additional_tips" := VList (VStr <$> tips recommendations);
       lit "status" := VStr (lit "success") ]}.

(** No whitespace at either end. *)
Definition trimmed (t : str) : Prop :=
  (∀ c r, t = c :: r → isspace c = false) ∧ (∀ c r, t = r ++ [c] → isspace c = false).

(** Every way [predict] can answer, each with the condition on the request
    and on the classifier under which it does. *)
Inductive answers (lower : str → str) (analyzer : option (str → analysis))
    : request → list event * response → Prop :=
  | answers_options j :
      answers lower analyzer {| method := OPTIONS; get_json := j |}
        ([], jsonify {[ lit "status" := VStr (lit "OK") ]})
  | answers_unparsable e :
      answers lower analyzer {| method := POST; get_json := inl e |}
        ([], exception_response e)
  | answers_falsy data :
      truthy data = false →
      answers lower analyzer (post data)
        ([], error_response "No JSON data provided" 400)
  | answers_not_object data :
      truthy data = true → (∀ d, data ≠ VDict d) →
      answers lower analyzer (post data)
        ([], exception_response (attribute_error data "get"))
  | answers_not_string d v :
      d ≠ ∅ → default (VStr (lit "")) (d !! lit "text") = v → (∀ s, v ≠ VStr s) →
      answers lower analyzer (post (VDict d))
        ([], exception_response (attribute_error v "strip"))
  | answers_no_text d s :
      d ≠ ∅ → default (VStr (lit "")) (d !! lit "text") = VStr s → strip s = [] →
      answers lower analyzer (post (VDict d))
        ([], error_response "No text provided or text is empty" 400)
  | answers_too_long d s :
      d ≠ ∅ → default (VStr (lit "")) (d !! lit "text") = VStr s →
      (1000 < length (strip s))%nat →
      answers lower analyzer (post (VDict d))
        ([], error_response "Text too long. Please keep it under 1000 characters." 400)
  | answers_unavailable d s :
      analyzer = None →
      d ≠ ∅ → default (VStr (lit "")) (d !! lit "text") = VStr s →
      strip s ≠ [] → (length (strip s) ≤ 1000)%nat →
      answers lower analyzer (post (VDict d))
        ([], error_response "Sentiment analysis model not available" 500)
  | answers_failed f d s e :
      analyzer = Some f →
      d ≠ ∅ → default (VStr (lit "")) (d !! lit "text") = VStr s →
      strip s ≠ [] → (length (strip s) ≤ 1000)%nat →
      f (strip s) = Failed e →
      answers lower analyzer (post (VDict d))
        ([Analyze (strip s)], exception_response e)
  | answers_success f d s label score :
      analyzer = Some f →
      d ≠ ∅ → default (VStr (lit "")) (d !! lit "text") = VStr s →
      strip s ≠ [] → (length (strip s) ≤ 1000)%nat →
      f (strip s) = Labelled label score →
      answers lower analyzer (post (VDict d))
        ([Analyze (strip s)], success_response lower label score (strip s)).

(** What a client can rely on in an answer: a JSON object with a string
    'status'; on 200 no 'error' and a 'status' other than "error"; otherwise
    one of the codes 400, 404, 500, a string 'error' and 'status' "error". *)
Definition api_shape (r : response) : Prop :=
  ∃ fields : gmap str value,
    body r = VDict fields
    ∧ ((status r = 200 ∧ fields !! lit "error" = None
        ∧ ∃ st, fields !! lit "status" = Some (VStr st) ∧ st ≠ lit "error")
       ∨ ((status r = 400 ∨ status r = 404 ∨ status r = 500)
          ∧ (∃ msg, fields !! lit "error" = Some (VStr msg))
          ∧ fields !! lit "status" = Some (VStr (lit "error")))).

(** The seven entries of the decision table, each obtained by a call that
    reaches it. *)
Definition decision_table : list recommendation :=
  [ get_personalized_recommendation ascii_lower (lit "POSITIVE") (S754_infinity false) [];
    get_personalized_recommendation ascii_lower (lit "POSITIVE") (S754_zero false) [];
    get_personalized_recommendation ascii_lower (lit "NEGATIVE") (S754_zero false) (lit "stress");
    get_personalized_recommendation ascii_lower (lit "NEGATIVE") (S754_zero false) (lit "sad");
    get_personalized_recommendation ascii_lower (lit "NEGATIVE") (S754_zero false) (lit "mad");
    get_personalized_recommendation ascii_lower (lit "NEGATIVE") (S754_zero false) [];
    get_personalized_recommendation ascii_lower [] (S754_zero false) [] ].

(** * Properties *)

(** ** Strings and floats *)

Example lit_emoji : lit "🌟 a" = [0x1F31F; 0x20; 0x61].
Proof. reflexivity. Qed.

(** Space, tab, line feed and no-break space are stripped; inner spaces stay. *)
Example strip_spaces :
  strip ([0x20; 0x09] ++ lit "hi there" ++ [0x0A; 0xA0]) = lit "hi there".
Proof. reflexivity. Qed.

Lemma lstrip_nil_iff s : lstrip s = [] ↔ blank s.
Proof.
  unfold blank. induction s as [|c s IH]; simpl.
  - split; [constructor | reflexivity].
  - destruct (isspace c) eqn:E.
    + rewrite IH. split; [by constructor | by inversion 1].
    + split; [discriminate | inversion 1; congruence].
Qed.

Lemma blank_lstrip s : blank (lstrip s) ↔ blank s.
Proof.
  unfold blank. induction s as [|c s IH]; simpl; [reflexivity|].
  destruct (isspace c) eqn:E; [|reflexivity].
  rewrite IH. split; [by constructor | by inversion 1].
Qed.

Lemma blank_rev s : blank (rev s) ↔ blank s.
Proof.
  unfold blank. split; intros H.
  - rewrite <- (rev_involutive s). by apply Forall_rev.
  - by apply Forall_rev.
Qed.

(** [strip] leaves nothing exactly of the blank strings. *)
Lemma strip_nil_iff s : strip s = [] ↔ blank s.
Proof.
  unfold strip, rstrip.
  rewrite <- blank_lstrip, <- blank_rev, <- lstrip_nil_iff.
  split; intros H.
  - apply (f_equal (@rev N)) in H. by rewrite rev_involutive in H.
  - by rewrite H.
Qed.

Lemma startswith_spec t w : startswith t w = true ↔ ∃ post, t = w ++ post.
Proof.
  revert t. induction w as [|a w IH]; intros t; simpl.
  - split; [intros _; by exists t | reflexivity].
  - destruct t as [|b t].
    + split; [done | intros [post H]; discriminate H].
    + rewrite andb_true_iff, N.eqb_eq, IH. split.
      * intros [-> [post ->]]. by exists post.
      * intros [post H]. injection H as -> ->. eauto.
Qed.

Lemma str_in_spec w t : str_in w t = true ↔ occurs w t.
Proof.
  unfold occurs. induction t as [|b t IH].
  - simpl. rewrite orb_false_r, startswith_spec. split.
    + intros [post H]. by exists [], post.
    + intros [pre [post H]]. destruct pre as [|x pre]; [by exists post | discriminate H].
  - cbn [str_in]. rewrite orb_true_iff, IH, startswith_spec. split.
    + intros [[post H] | [pre [post H]]].
      * by exists [], post.
      * exists (b :: pre), post. by rewrite H.
    + intros [[|x pre] [post H]].
      * left. by exists post.
      * right. injection H as _ ->. by exists pre, post.
Qed.

Lemma any_str_in_spec t ws :
  any (fun word => str_in word t) ws = true ↔ mentions t ws.
Proof.
  unfold any, mentions. rewrite existsb_exists.
  split; intros [w [Hin H]]; exists w; split; auto; by apply str_in_spec.
Qed.

Lemma any_str_in_false t ws :
  any (fun word => str_in word t) ws = false ↔ ¬ mentions t ws.
Proof.
  rewrite <- any_str_in_spec. by destruct (any _ ws).
Qed.

(** Python's [==] on floats identifies the two zeros and nothing else. *)
Lemma float_eq_inv c1 c2 :
  float_eq c1 c2 = true →
  c1 = c2 ∨ ∃ s1 s2, c1 = S754_zero s1 ∧ c2 = S754_zero s2.
Proof.
  unfold float_eq, SFeqb.
  destruct c1 as [s1|s1| |s1 m1 e1], c2 as [s2|s2| |s2 m2 e2]; simpl;
    try discriminate; try (by destruct s1); try (by destruct s2).
  - intros _. right. eauto.
  - destruct s1, s2; (discriminate || by left).
  - change (PosDef.Pos.compare_cont Eq m1 m2) with (Pos.compare m1 m2).
    destruct s1, s2; try discriminate;
      destruct (Z.compare_spec e1 e2) as [->| |]; try discriminate;
      destruct (Pos.compare_spec m1 m2) as [->| |]; try discriminate;
      by left.
Qed.

(** Hence [>] against a bound cannot tell equal floats apart. *)
Lemma float_gt_proper c1 c2 b :
  float_eq c1 c2 = true → float_gt c1 b = float_gt c2 b.
Proof.
  intros [->|(s1 & s2 & -> & ->)]%float_eq_inv; [done|].
  by destruct b as [|[]| |[]].
Qed.

Example float_gt_0_9 :
  float_gt (S754_finite false 8556839292003942 (-53)) float_0_9 = true   (* 0.95 *)
  ∧ float_gt float_0_9 float_0_9 = false
  ∧ float_gt (S754_finite false 8106479329266892 (-53)) float_0_9 = false (* just below *)
  ∧ float_gt S754_nan float_0_9 = false.
Proof. by repeat split. Qed.

Lemma NEGATIVE_neq_POSITIVE : lit "NEGATIVE" ≠ lit "POSITIVE".
Proof. by vm_compute. Qed.

(** ** The recommendation selector *)

Section SelectorFacts.

Variable lower : str → str.

Abbreviation select := (get_personalized_recommendation lower).

(** On 'POSITIVE' only the outcome of the comparison with 0.9 matters. *)
Lemma select_positive (c : spec_float) (text : str) :
  select (lit "POSITIVE") c text =
    if float_gt c float_0_9
    then select (lit "POSITIVE") (S754_infinity false) []
    else select (lit "POSITIVE") (S754_zero false) [].
Proof.
  unfold get_personalized_recommendation.
  rewrite decide_True by reflexivity.
  by destruct (float_gt c float_0_9).
Qed.

(** C1. For the label 'POSITIVE' the confidence alone selects: strictly
    above 0.9 the "radiating positive energy" message with its four tips,
    and for every confidence that is not above 0.9 the "feeling good"
    message with its four tips. *)
Theorem positive_selects_by_confidence (c : spec_float) (text : str) :
  (float_gt c float_0_9 = true →
     select (lit "POSITIVE") c text =
       {| message := lit "🌟 You're radiating positive energy! This is wonderful to see.";
          tips := [ lit "🎵 Listen to your favorite uplifting music";
                    lit "📞 Share this positive energy with a friend";
                    lit "📝 Write down what made you feel good today";
                    lit "🌱 Use this momentum for a creative project" ] |})
  ∧ (float_gt c float_0_9 = false →
     select (lit "POSITIVE") c text =
       {| message := lit "😊 You seem to be feeling good! Let's build on these positive vibes.";
          tips := [ lit "🚶‍♀️ Take a pleasant walk outside";
                    lit "📖 Read something inspiring";
                    lit "🧘‍♀️ Practice gratitude meditation";
                    lit "💪 Try a fun physical activity" ] |}).
Proof.
  rewrite select_positive.
  destruct (float_gt c float_0_9); split; intros H; try discriminate H;
    vm_compute; reflexivity.
Qed.

(** C9. The threshold is strict: a confidence equal to 0.9 gets the
    "feeling good" message, not the "radiating positive energy" one. *)
Theorem threshold_is_strict (c : spec_float) (text : str) :
  float_eq c float_0_9 = true →
  message (select (lit "POSITIVE") c text)
    = lit "😊 You seem to be feeling good! Let's build on these positive vibes."
  ∧ message (select (lit "POSITIVE") c text)
    ≠ lit "🌟 You're radiating positive energy! This is wonderful to see.".
Proof.
  intros Heq. apply (float_gt_proper _ _ float_0_9) in Heq.
  change (float_gt float_0_9 float_0_9) with false in Heq.
  rewrite select_positive.
  destruct (float_gt c float_0_9); [discriminate Heq|].
  split; [vm_compute; reflexivity | by vm_compute].
Qed.

(** C8. For the label 'POSITIVE' the text plays no part: two calls that
    differ in the text only return the same message and tips. *)
Theorem positive_ignores_text (c : spec_float) (text1 text2 : str) :
  select (lit "POSITIVE") c text1 = select (lit "POSITIVE") c text2.
Proof.
  by rewrite (select_positive c text1), (select_positive c text2).
Qed.

(** C2. For the label 'NEGATIVE' the lowercased text is searched for
    keywords, in order: one of 'anxious', 'anxiety', 'worried', 'stress'
    gives the anxiety message; failing that, one of 'sad', 'depressed',
    'down', 'upset' gives the tough-time message; failing that, one of
    'angry', 'mad', 'frustrated', 'irritated' gives the frustration message;
    failing all three, the default "going through something difficult"
    message is returned. *)
Theorem negative_selects_by_keywords (c : spec_float) (text : str) :
  let anxiety := [lit "anxious"; lit "anxiety"; lit "worried"; lit "stress"] in
  let sadness := [lit "sad"; lit "depressed"; lit "down"; lit "upset"] in
  let anger := [lit "angry"; lit "mad"; lit "frustrated"; lit "irritated"] in
  let text_lower := lower text in
  let r := select (lit "NEGATIVE") c text in
  (mentions text_lower anxiety →
     r = {| message := lit "😌 I understand you're feeling anxious. Remember, this feeling will pass.";
            tips := [ lit "🫁 Try deep breathing exercises (4-7-8 technique)";
                      lit "🧘‍♀️ Practice a 5-minute mindfulness meditation";
                      lit "📱 Use a calming app like Headspace or Calm";
                      lit "☎️ Consider talking to a trusted friend or counselor" ] |})
  ∧ (¬ mentions text_lower anxiety → mentions text_lower sadness →
     r = {| message := lit "💙 I hear that you're going through a tough time. Your feelings are valid.";
            tips := [ lit "🌅 Try to get some natural sunlight";
                      lit "🎨 Express yourself through art, writing, or music";
                      lit "🏃‍♀️ Light exercise can help boost mood";
                      lit "🤗 Reach out to someone who cares about you" ] |})
  ∧ (¬ mentions text_lower anxiety → ¬ mentions text_lower sadness →
     mentions text_lower anger →
     r = {| message := lit "😤 It sounds like you're feeling frustrated. Let's work on channeling this energy.";
            tips := [ lit "💨 Take 10 deep breaths before reacting";
                      lit "🏋️‍♀️ Try physical exercise to release tension";
                      lit "📝 Write down your feelings in a journal";
                      lit "🎯 Focus on what you can control in the situation" ] |})
  ∧ (¬ mentions text_lower anxiety → ¬ mentions text_lower sadness →
     ¬ mentions text_lower anger →
     r = {| message := lit "💭 I sense you might be going through something difficult. Remember, it's okay to not be okay.";
            tips := [ lit "🛁 Take a warm bath or shower";
                      lit "📚 Read a comforting book or watch a feel-good movie";
                      lit "🍵 Make yourself a warm drink";
                      lit "💬 Consider talking to a mental health professional" ] |}).
Proof.
  intros anxiety sadness anger text_lower r.
  subst r. unfold get_personalized_recommendation.
  rewrite (decide_False (P := lit "NEGATIVE" = lit "POSITIVE"))
    by apply NEGATIVE_neq_POSITIVE.
  rewrite decide_True by reflexivity.
  cbv zeta. fold text_lower anxiety sadness anger.
  destruct (any _ anxiety) eqn:E1;
    [apply any_str_in_spec in E1
    |apply any_str_in_false in E1;
     destruct (any _ sadness) eqn:E2;
       [apply any_str_in_spec in E2
       |apply any_str_in_false in E2;
        destruct (any _ anger) eqn:E3;
          [apply any_str_in_spec in E3 | apply any_str_in_false in E3]]];
    (split; [|split; [|split]]); intros; first [contradiction | reflexivity].
Qed.

(** C5. The selector is defined on every label, confidence and text, and
    its result always has the same shape: a non-empty message and exactly
    four tips.  A label other than 'POSITIVE' and 'NEGATIVE' takes the
    neutral branch. *)
Theorem selection_total_fixed_shape (sentiment : str) (c : spec_float) (text : str) :
  message (select sentiment c text) ≠ []
  ∧ length (tips (select sentiment c text)) = 4%nat
  ∧ (sentiment ≠ lit "POSITIVE" → sentiment ≠ lit "NEGATIVE" →
     select sentiment c text =
       {| message := lit "🤔 Your feelings seem mixed right now, which is completely normal.";
          tips := [ lit "📓 Try journaling to explore your thoughts";
                    lit "🚶‍♀️ Take a mindful walk to clear your head";
                    lit "🎵 Listen to music that resonates with your mood";
                    lit "🧘‍♀️ Try a brief meditation or breathing exercise" ] |}).
Proof.
  unfold get_personalized_recommendation. cbv zeta.
  destruct (decide (sentiment = lit "POSITIVE")) as [HP|HP];
    [destruct (float_gt c float_0_9)
    |destruct (decide (sentiment = lit "NEGATIVE")) as [HN|HN];
      [destruct (any _ [lit "anxious"; _; _; _]);
        [|destruct (any _ [lit "sad"; _; _; _]);
          [|destruct (any _ [lit "angry"; _; _; _])]]|]];
    (split; [by vm_compute | split; [reflexivity |]]);
    intros H1 H2; first [contradiction | reflexivity].
Qed.

(** Equal arguments select the same record, also when the two confidences
    are different floats that Python's [==] identifies (0.0 and -0.0). *)
Lemma selection_deterministic
    (sentiment1 sentiment2 : str) (c1 c2 : spec_float) (text1 text2 : str) :
  sentiment1 = sentiment2 →
  c1 = c2 ∨ float_eq c1 c2 = true →
  text1 = text2 →
  select sentiment1 c1 text1 = select sentiment2 c2 text2.
Proof.
  intros -> [->|Heq] ->; [reflexivity|].
  apply (float_gt_proper _ _ float_0_9) in Heq.
  unfold get_personalized_recommendation.
  destruct (float_gt c1 float_0_9), (float_gt c2 float_0_9);
    first [discriminate Heq | reflexivity].
Qed.

End SelectorFacts.

(** ** The selector in its frame *)

Lemma name_eqb_eq (x y : Name.t) : Name.eqb x y = true ↔ x = y.
Proof.
  unfold Name.eqb. rewrite Nat.eqb_eq. split; [|by intros ->].
  destruct x, y; simpl; (reflexivity || discriminate).
Qed.

Section FrameFacts.

Context {object : Type}.
Variable data : object → option value.
Variable lower : str → str.

Ltac run :=
  cbv beta iota zeta delta
    [mbind mret Frame.py_bind Frame.py_ret Frame.load Frame.store
     Frame.lower_method Frame.eq_str Frame.gt_0_9 Frame.contains
     Frame.is_local Frame.locals Frame.globals
     Name.eqb Name.index Nat.eqb].

Lemma any_of_text_lower (fr : Frame.frame object) (t : str) (words : list str) :
  Frame.locals fr Name.text_lower = Some (VStr t) →
  Frame.any_of (Frame.word_in_text_lower data) words fr
  = Frame.Ok (any (λ word, str_in word t) words) fr.
Proof.
  destruct fr as [L Gl]. cbn [Frame.locals]. intros Ht.
  induction words as [|word rest IH]; [reflexivity|].
  cbn [Frame.any_of any existsb]. unfold Frame.word_in_text_lower. run.
  rewrite Ht. run.
  destruct (str_in word t); [reflexivity|]. exact IH.
Qed.

Ltac same_record :=
  cbv beta iota delta [message tips fmap list_fmap]; reflexivity.

(** A call on a label, a confidence and a text returns the dictionary of the
    selector and leaves the globals as they were. *)
Lemma frame_call (G : Name.t → option object) (sentiment : str) (c : spec_float) (text : str) :
  Frame.get_personalized_recommendation data lower G
    (VStr sentiment) (VFloat c) (VStr text)
  = inr (recommendation_value (get_personalized_recommendation lower sentiment c text), G).
Proof.
  unfold Frame.get_personalized_recommendation, Frame.body.
  unfold get_personalized_recommendation, recommendation_value. cbv zeta.
  run.
  destruct (decide (sentiment = lit "POSITIVE")) as [HP|HP];
    [rewrite (bool_decide_eq_true_2 _ HP) | rewrite (bool_decide_eq_false_2 _ HP)];
    run.
  - destruct (float_gt c float_0_9); run; same_record.
  - destruct (decide (sentiment = lit "NEGATIVE")) as [HN|HN];
      [rewrite (bool_decide_eq_true_2 _ HN) | rewrite (bool_decide_eq_false_2 _ HN)];
      run; [|same_record].
    rewrite (any_of_text_lower _ (lower text)) by reflexivity. run.
    destruct (any _ [lit "anxious"; _; _; _]); run; [same_record|].
    rewrite (any_of_text_lower _ (lower text)) by reflexivity. run.
    destruct (any _ [lit "sad"; _; _; _]); run; [same_record|].
    rewrite (any_of_text_lower _ (lower text)) by reflexivity. run.
    destruct (any _ [lit "angry"; _; _; _]); run; same_record.
Qed.

(** C6. The selector is pure and deterministic.  Run in its frame, over
    whatever the module's globals hold, a call returns the selector's
    dictionary and leaves the globals as they were: it reads no name but its
    parameters and its own local variables, and writes none but those.  Hence
    two calls with equal arguments (the same label and text, and the same
    confidence or two that Python's [==] identifies) return equal results in
    any two states of the module. *)
Theorem selection_is_pure
    (G1 G2 : Name.t → option object) (sentiment : str) (c1 c2 : spec_float) (text : str) :
  c1 = c2 ∨ float_eq c1 c2 = true →
  ∃ r : value,
    Frame.get_personalized_recommendation data lower G1
      (VStr sentiment) (VFloat c1) (VStr text) = inr (r, G1)
    ∧ Frame.get_personalized_recommendation data lower G2
        (VStr sentiment) (VFloat c2) (VStr text) = inr (r, G2)
    ∧ r = recommendation_value (get_personalized_recommendation lower sentiment c1 text).
Proof.
  intros Hc. eexists. split; [apply frame_call|]. split; [|reflexivity].
  rewrite frame_call.
  by rewrite (selection_deterministic lower sentiment sentiment c1 c2 text text
                eq_refl Hc eq_refl).
Qed.

End FrameFacts.

(** *** The selector on concrete inputs *)

Example select_stressed :
  message (get_personalized_recommendation ascii_lower (lit "NEGATIVE")
             float_0_9 (lit "Work has me so STRESSED lately"))
  = lit "😌 I understand you're feeling anxious. Remember, this feeling will pass.".
Proof. vm_compute. reflexivity. Qed.

(** A keyword is found inside a longer word: 'mad' in 'made'. *)
Example select_made :
  message (get_personalized_recommendation ascii_lower (lit "NEGATIVE")
             float_0_9 (lit "I made a mistake"))
  = lit "😤 It sounds like you're feeling frustrated. Let's work on channeling this energy.".
Proof. vm_compute. reflexivity. Qed.

Lemma positive_selects_by_confidence_witness :
  let high := S754_finite false 8556839292003942 (-53) in   (* 0.95 *)
  let low := S754_finite false 4503599627370496 (-53) in    (* 0.5 *)
  (float_gt high float_0_9 = true
   ∧ message (get_personalized_recommendation ascii_lower (lit "POSITIVE") high
                (lit "what a day"))
     = lit "🌟 You're radiating positive energy! This is wonderful to see.")
  ∧ (float_gt low float_0_9 = false
     ∧ message (get_personalized_recommendation ascii_lower (lit "POSITIVE") low
                  (lit "what a day"))
       = lit "😊 You seem to be feeling good! Let's build on these positive vibes.").
Proof.
  intros high low.
  split; (split; [reflexivity|]).
  - destruct (positive_selects_by_confidence ascii_lower high (lit "what a day"))
      as [H _].
    rewrite (H eq_refl). reflexivity.
  - destruct (positive_selects_by_confidence ascii_lower low (lit "what a day"))
      as [_ H].
    rewrite (H eq_refl). reflexivity.
Defined.

Lemma threshold_is_strict_witness :
  float_eq float_0_9 float_0_9 = true
  ∧ message (get_personalized_recommendation ascii_lower (lit "POSITIVE")
               float_0_9 (lit "fine"))
    = lit "😊 You seem to be feeling good! Let's build on these positive vibes.".
Proof.
  split; [reflexivity|].
  exact (proj1 (threshold_is_strict ascii_lower float_0_9 (lit "fine") eq_refl)).
Defined.

Lemma negative_selects_by_keywords_witness :
  let anxiety := [lit "anxious"; lit "anxiety"; lit "worried"; lit "stress"] in
  let sadness := [lit "sad"; lit "depressed"; lit "down"; lit "upset"] in
  let anger := [lit "angry"; lit "mad"; lit "frustrated"; lit "irritated"] in
  let select := get_personalized_recommendation ascii_lower (lit "NEGATIVE") float_0_9 in
  let t1 := lit "So much STRESS, and I am sad" in
  let t2 := lit "Feeling Down and angry" in
  let t3 := lit "I am FRUSTRATED" in
  let t4 := lit "Nothing helps" in
  (mentions (ascii_lower t1) anxiety
   ∧ message (select t1)
     = lit "😌 I understand you're feeling anxious. Remember, this feeling will pass.")
  ∧ (¬ mentions (ascii_lower t2) anxiety ∧ mentions (ascii_lower t2) sadness
     ∧ message (select t2)
       = lit "💙 I hear that you're going through a tough time. Your feelings are valid.")
  ∧ (¬ mentions (ascii_lower t3) anxiety ∧ ¬ mentions (ascii_lower t3) sadness
     ∧ mentions (ascii_lower t3) anger
     ∧ message (select t3)
       = lit "😤 It sounds like you're feeling frustrated. Let's work on channeling this energy.")
  ∧ (¬ mentions (ascii_lower t4) anxiety ∧ ¬ mentions (ascii_lower t4) sadness
     ∧ ¬ mentions (ascii_lower t4) anger
     ∧ message (select t4)
       = lit "💭 I sense you might be going through something difficult. Remember, it's okay to not be okay.").
Proof.
  intros anxiety sadness anger select t1 t2 t3 t4.
  assert (Y : ∀ t ws, any (fun word => str_in word t) ws = true → mentions t ws)
    by (intros t ws; apply any_str_in_spec).
  assert (N : ∀ t ws, any (fun word => str_in word t) ws = false → ¬ mentions t ws)
    by (intros t ws; apply any_str_in_false).
  assert (A1 : mentions (ascii_lower t1) anxiety) by (apply Y; vm_compute; reflexivity).
  assert (A2 : ¬ mentions (ascii_lower t2) anxiety) by (apply N; vm_compute; reflexivity).
  assert (S2 : mentions (ascii_lower t2) sadness) by (apply Y; vm_compute; reflexivity).
  assert (A3 : ¬ mentions (ascii_lower t3) anxiety) by (apply N; vm_compute; reflexivity).
  assert (S3 : ¬ mentions (ascii_lower t3) sadness) by (apply N; vm_compute; reflexivity).
  assert (G3 : mentions (ascii_lower t3) anger) by (apply Y; vm_compute; reflexivity).
  assert (A4 : ¬ mentions (ascii_lower t4) anxiety) by (apply N; vm_compute; reflexivity).
  assert (S4 : ¬ mentions (ascii_lower t4) sadness) by (apply N; vm_compute; reflexivity).
  assert (G4 : ¬ mentions (ascii_lower t4) anger) by (apply N; vm_compute; reflexivity).
  pose proof (negative_selects_by_keywords ascii_lower float_0_9 t1) as (H1 & _).
  pose proof (negative_selects_by_keywords ascii_lower float_0_9 t2) as (_ & H2 & _).
  pose proof (negative_selects_by_keywords ascii_lower float_0_9 t3) as (_ & _ & H3 & _).
  pose proof (negative_selects_by_keywords ascii_lower float_0_9 t4) as (_ & _ & _ & H4).
  subst select. cbv beta.
  rewrite (H1 A1), (H2 A2 S2), (H3 A3 S3 G3), (H4 A4 S4 G4).
  repeat match goal with |- _ ∧ _ => split end; first [assumption | reflexivity].
Defined.

Lemma selection_total_fixed_shape_witness :
  lit "NEUTRAL" ≠ lit "POSITIVE" ∧ lit "NEUTRAL" ≠ lit "NEGATIVE"
  ∧ message (get_personalized_recommendation ascii_lower (lit "NEUTRAL")
               S754_nan (lit "so sad"))
    = lit "🤔 Your feelings seem mixed right now, which is completely normal.".
Proof.
  assert (HP : lit "NEUTRAL" ≠ lit "POSITIVE") by (by vm_compute).
  assert (HN : lit "NEUTRAL" ≠ lit "NEGATIVE") by (by vm_compute).
  split; [exact HP | split; [exact HN|]].
  destruct (selection_total_fixed_shape ascii_lower (lit "NEUTRAL") S754_nan
              (lit "so sad")) as (_ & _ & H).
  rewrite (H HP HN). reflexivity.
Defined.

(** In the frame, a text or a confidence of the wrong type raises. *)
Example frame_call_raises :
  Frame.get_personalized_recommendation (λ o : N, None) ascii_lower (λ _, None)
    (VStr (lit "POSITIVE")) (VFloat float_0_9) VNone
  = inl (Frame.AttributeError (lit "'NoneType' object has no attribute 'lower'"))
  ∧ Frame.get_personalized_recommendation (λ o : N, None) ascii_lower (λ _, None)
      (VStr (lit "POSITIVE")) (VStr (lit "high")) (VStr (lit "fine"))
    = inl (Frame.TypeError
             (lit "'>' not supported between instances of 'str' and 'float'")).
Proof. split; vm_compute; reflexivity. Qed.

Lemma selection_is_pure_witness :
  let data (o : N) : option value := None in
  let G1 (x : Name.t) : option N :=
    if Name.eqb x Name.sentiment_analyzer then Some 7 else None in
  let G2 (x : Name.t) : option N := None in
  float_eq (S754_zero false) (S754_zero true) = true
  ∧ ∃ r : value,
      Frame.get_personalized_recommendation data ascii_lower G1
        (VStr (lit "NEGATIVE")) (VFloat (S754_zero false)) (VStr (lit "so sad")) = inr (r, G1)
      ∧ Frame.get_personalized_recommendation data ascii_lower G2
          (VStr (lit "NEGATIVE")) (VFloat (S754_zero true)) (VStr (lit "so sad")) = inr (r, G2)
      ∧ r = recommendation_value
              (get_personalized_recommendation ascii_lower (lit "NEGATIVE")
                 (S754_zero false) (lit "so sad")).
Proof.
  intros data G1 G2. split; [reflexivity|].
  exact (selection_is_pure data ascii_lower G1 G2 (lit "NEGATIVE")
           (S754_zero false) (S754_zero true) (lit "so sad") (or_intror eq_refl)).
Defined.

(** ** The handler monad *)

Lemma handler_bind_ret {A B} (a : A) (k : A → handler B) : mret a ≫= k = k a.
Proof. unfold mbind, mret, handler_bind, handler_ret. by destruct (k a). Qed.

Lemma handler_bind_return {A B} (r : response) (k : A → handler B) :
  return_ r ≫= k = return_ r.
Proof. reflexivity. Qed.

Lemma handler_bind_raise {A B} (e : str) (k : A → handler B) :
  raise e ≫= k = raise e.
Proof. reflexivity. Qed.

Lemma handler_bind_assoc {A B C} (m : handler A) (k : A → handler B) (h : B → handler C) :
  (m ≫= k) ≫= h = m ≫= (λ a, k a ≫= h).
Proof.
  destruct m as [t [a| |]]; try reflexivity.
  unfold mbind, handler_bind. destruct (k a) as [t1 [b| |]]; try reflexivity.
  destruct (h b) as [t2 o]. by rewrite app_assoc.
Qed.

Lemma try_except_return (r : response) (h : str → response) :
  try_except (return_ r) h = ([], r).
Proof. reflexivity. Qed.

Lemma try_except_raise (e : str) (h : str → response) :
  try_except (raise e) h = ([], h e).
Proof. reflexivity. Qed.

Ltac handler_simpl :=
  repeat first
    [ rewrite handler_bind_ret
    | rewrite handler_bind_return
    | rewrite handler_bind_raise
    | rewrite try_except_return
    | rewrite try_except_raise ].

(** ** The [/predict] handler *)

Lemma error_response_fields (msg : string) (code : N) :
  status (error_response msg code) = code
  ∧ ∃ fields : gmap str value,
      body (error_response msg code) = VDict fields
      ∧ dom fields = {[ lit "error"; lit "status" ]}
      ∧ fields !! lit "error" = Some (VStr (lit msg))
      ∧ fields !! lit "status" = Some (VStr (lit "error")).
Proof.
  split; [reflexivity|]. eexists. split; [reflexivity|].
  split; [|split].
  - rewrite dom_insert_L, dom_singleton_L. reflexivity.
  - apply lookup_insert_eq.
  - rewrite lookup_insert_ne by (by vm_compute). apply lookup_singleton_eq.
Qed.

Lemma truthy_dict (d : gmap str value) : truthy (VDict d) = bool_decide (d ≠ ∅).
Proof.
  simpl. destruct (Nat.eqb_spec (size d) 0) as [H|H].
  - apply map_size_empty_iff in H. by rewrite bool_decide_eq_false_2 by auto.
  - apply map_size_non_empty_iff in H. by rewrite bool_decide_eq_true_2.
Qed.

Lemma truthy_str (s : str) : truthy (VStr s) = bool_decide (s ≠ []).
Proof. by destruct s. Qed.

Section ServiceFacts.

Variable lower : str → str.

Implicit Types (analyzer : option (str → analysis)) (d : gmap str value) (s : str).

(** The handler on a [POST] whose body is a JSON object, one equation per
    exit up to the model check. *)
Lemma predict_empty_object analyzer :
  predict lower analyzer (post (VDict ∅)) =
    ([], error_response "No JSON data provided" 400).
Proof. reflexivity. Qed.

(** The common prefix: the request is a [POST], its body a non-empty
    object, and [data.get('text', '')] is the string [s]. *)
Ltac enter_handler Hd Hs :=
  unfold predict, post, get_json, method, get;
  rewrite decide_False by done; handler_simpl;
  rewrite truthy_dict, bool_decide_eq_true_2 by exact Hd; cbn [negb];
  handler_simpl; rewrite Hs; unfold strip_method; handler_simpl;
  rewrite truthy_str.

Lemma predict_no_text analyzer d s :
  d ≠ ∅ →
  default (VStr (lit "")) (d !! lit "text") = VStr s →
  strip s = [] →
  predict lower analyzer (post (VDict d)) =
    ([], error_response "No text provided or text is empty" 400).
Proof.
  intros Hd Hs Hempty. enter_handler Hd Hs.
  rewrite bool_decide_eq_false_2 by auto. reflexivity.
Qed.

Lemma predict_too_long analyzer d s :
  d ≠ ∅ →
  default (VStr (lit "")) (d !! lit "text") = VStr s →
  (1000 < length (strip s))%nat →
  predict lower analyzer (post (VDict d)) =
    ([], error_response "Text too long. Please keep it under 1000 characters." 400).
Proof.
  intros Hd Hs Hlong. enter_handler Hd Hs.
  rewrite bool_decide_eq_true_2 by (intros E; rewrite E in Hlong; simpl in Hlong; lia).
  cbn [negb]. handler_simpl.
  apply Nat.ltb_lt in Hlong. rewrite Hlong. reflexivity.
Qed.

Lemma predict_unavailable d s :
  default (VStr (lit "")) (d !! lit "text") = VStr s →
  strip s ≠ [] →
  (length (strip s) ≤ 1000)%nat →
  predict lower None (post (VDict d)) =
    ([], error_response "Sentiment analysis model not available" 500).
Proof.
  intros Hs Hne Hlen.
  assert (Hd : d ≠ ∅).
  { intros ->. rewrite lookup_empty in Hs. injection Hs as <-. by apply Hne. }
  enter_handler Hd Hs.
  rewrite bool_decide_eq_true_2 by exact Hne. cbn [negb]. handler_simpl.
  replace (1000 <? length (strip s))%nat with false
    by (symmetry; apply Nat.ltb_ge, Hlen).
  handler_simpl. reflexivity.
Qed.

Lemma predict_analysed (f : str → analysis) d s label score :
  default (VStr (lit "")) (d !! lit "text") = VStr s →
  strip s ≠ [] →
  (length (strip s) ≤ 1000)%nat →
  f (strip s) = Labelled label score →
  predict lower (Some f) (post (VDict d)) =
    ([Analyze (strip s)],
     jsonify
       {[ lit "sentiment" := VStr label;
          lit "recommendation" :=
            VStr (message (get_personalized_recommendation lower label score (strip s)));
          lit "confidence_score" := VFloat score;
          lit "additional_tips" :=
            VList (VStr <$> tips (get_personalized_recommendation lower label score (strip s)));
          lit "status" := VStr (lit "success") ]}).
Proof.
  intros Hs Hne Hlen Hf.
  assert (Hd : d ≠ ∅).
  { intros ->. rewrite lookup_empty in Hs. injection Hs as <-. by apply Hne. }
  enter_handler Hd Hs.
  rewrite bool_decide_eq_true_2 by exact Hne. cbn [negb]. handler_simpl.
  replace (1000 <? length (strip s))%nat with false
    by (symmetry; apply Nat.ltb_ge, Hlen).
  handler_simpl. unfold call. rewrite Hf. reflexivity.
Qed.

Lemma predict_analyzer_raises (f : str → analysis) d s e :
  default (VStr (lit "")) (d !! lit "text") = VStr s →
  strip s ≠ [] →
  (length (strip s) ≤ 1000)%nat →
  f (strip s) = Failed e →
  predict lower (Some f) (post (VDict d)) =
    ([Analyze (strip s)],
     with_status (jsonify {[ lit "error" := VStr (lit "Internal server error: " ++ e);
                             lit "status" := VStr (lit "error") ]}) 500).
Proof.
  intros Hs Hne Hlen Hf.
  assert (Hd : d ≠ ∅).
  { intros ->. rewrite lookup_empty in Hs. injection Hs as <-. by apply Hne. }
  enter_handler Hd Hs.
  rewrite bool_decide_eq_true_2 by exact Hne. cbn [negb]. handler_simpl.
  replace (1000 <? length (strip s))%nat with false
    by (symmetry; apply Nat.ltb_ge, Hlen).
  handler_simpl. unfold call. rewrite Hf. reflexivity.
Qed.

(** C3, as the handler has it.  On a [POST] whose body is a JSON object,
    presence and length are checked before the classifier is called: the
    empty object is answered 400 "No JSON data provided"; a non-empty object
    with no 'text' field, or whose 'text' is a string that is empty once
    stripped, is answered 400 "No text provided or text is empty"; one whose
    stripped 'text' is longer than 1000 characters is answered 400 "Text too
    long. Please keep it under 1000 characters.".  In none of these cases is
    the classifier called, whatever [sentiment_analyzer] is. *)
Theorem validation_rejects_before_analysis analyzer d :
  (d = ∅ →
     predict lower analyzer (post (VDict d)) =
       ([], error_response "No JSON data provided" 400))
  ∧ (d ≠ ∅ → d !! lit "text" = None →
     predict lower analyzer (post (VDict d)) =
       ([], error_response "No text provided or text is empty" 400))
  ∧ (∀ s, d !! lit "text" = Some (VStr s) → strip s = [] →
     predict lower analyzer (post (VDict d)) =
       ([], error_response "No text provided or text is empty" 400))
  ∧ (∀ s, d !! lit "text" = Some (VStr s) → (1000 < length (strip s))%nat →
     predict lower analyzer (post (VDict d)) =
       ([], error_response "Text too long. Please keep it under 1000 characters." 400)).
Proof.
  split; [|split; [|split]].
  - intros ->. apply predict_empty_object.
  - intros Hd Hnone. apply (predict_no_text _ _ (lit "")); [done| |done].
    by rewrite Hnone.
  - intros s Hs Hempty. apply (predict_no_text _ _ s); [|by rewrite Hs|done].
    intros ->. by rewrite lookup_empty in Hs.
  - intros s Hs Hlong. apply (predict_too_long _ _ s); [|by rewrite Hs|done].
    intros ->. by rewrite lookup_empty in Hs.
Qed.

(** C4. With no model loaded ([sentiment_analyzer] is [None]), every
    request that passes the presence and length checks (a [POST] whose
    'text' is a string, non-empty once stripped and of at most 1000
    characters) gets the fixed answer: status 500, error "Sentiment
    analysis model not available", status field 'error'. *)
Theorem unavailable_model_gives_500 d s :
  d !! lit "text" = Some (VStr s) →
  strip s ≠ [] →
  (length (strip s) ≤ 1000)%nat →
  predict lower None (post (VDict d)) =
    ([], {| body := VDict {[ lit "error" := VStr (lit "Sentiment analysis model not available");
                             lit "status" := VStr (lit "error") ]};
            status := 500 |}).
Proof.
  intros Hs Hne Hlen. apply (predict_unavailable _ s); [by rewrite Hs|done..].
Qed.


(** C10, as the handler has it.  The checks on the text come before the
    check on the model: with no model loaded, a [POST] whose body is a JSON
    object and whose 'text' is absent, blank (nothing but whitespace) or,
    once stripped, longer than 1000 characters is answered
    with the 400 of its validation error (for an absent 'text',
    "No JSON data provided" when the object is empty and "No text provided
    or text is empty" otherwise), never with the 500 "Sentiment analysis
    model not available". *)
Theorem validation_precedes_model_check d :
  let req := post (VDict d) in
  let unavailable := error_response "Sentiment analysis model not available" 500 in
  (d !! lit "text" = None →
     predict lower None req =
       ([], error_response (if decide (d = ∅) then "No JSON data provided"
                            else "No text provided or text is empty") 400))
  ∧ (∀ s, d !! lit "text" = Some (VStr s) → blank s →
     predict lower None req =
       ([], error_response "No text provided or text is empty" 400))
  ∧ (∀ s, d !! lit "text" = Some (VStr s) → (1000 < length (strip s))%nat →
     predict lower None req =
       ([], error_response "Text too long. Please keep it under 1000 characters." 400))
  ∧ (∀ msg, status (error_response msg 400) = 400
            ∧ error_response msg 400 ≠ unavailable).
Proof.
  intros req unavailable. subst req. split; [|split; [|split]].
  - intros Hnone. destruct (decide (d = ∅)) as [->|Hd].
    + apply predict_empty_object.
    + apply (predict_no_text _ _ (lit "")); [done| |done]. by rewrite Hnone.
  - intros s Hs Hblank.
    apply (predict_no_text _ _ s); [|by rewrite Hs|by apply strip_nil_iff].
    intros ->. by rewrite lookup_empty in Hs.
  - intros s Hs Hlong. apply (predict_too_long _ _ s); [|by rewrite Hs|done].
    intros ->. by rewrite lookup_empty in Hs.
  - intros msg. split; [reflexivity|]. intros H.
    apply (f_equal status) in H. discriminate H.
Qed.

End ServiceFacts.

(** *** The handler on concrete requests *)

(** A preflight is answered before anything is looked at. *)
Example predict_options :
  predict ascii_lower None {| method := OPTIONS; get_json := inl (lit "no body") |}
  = ([], jsonify {[ lit "status" := VStr (lit "OK") ]}).
Proof. reflexivity. Qed.

(** A body that is not JSON, a JSON body that is not an object, and a 'text'
    that is not a string all end in the [except] clause. *)
Example predict_not_json :
  predict ascii_lower None {| method := POST; get_json := inl (lit "400 Bad Request") |}
  = ([], with_status (jsonify
           {[ lit "error" := VStr (lit "Internal server error: 400 Bad Request");
              lit "status" := VStr (lit "error") ]}) 500).
Proof. vm_compute. reflexivity. Qed.

Example predict_array_body :
  predict ascii_lower None (post (VList [VInt 1]))
  = ([], with_status (jsonify
           {[ lit "error" := VStr (lit "Internal server error: 'list' object has no attribute 'get'");
              lit "status" := VStr (lit "error") ]}) 500).
Proof. vm_compute. reflexivity. Qed.

Example predict_text_not_a_string :
  predict ascii_lower None (post (VDict {[ lit "text" := VInt 5 ]}))
  = ([], with_status (jsonify
           {[ lit "error" := VStr (lit "Internal server error: 'int' object has no attribute 'strip'");
              lit "status" := VStr (lit "error") ]}) 500).
Proof. vm_compute. reflexivity. Qed.

(** The length that is checked is that of the stripped text: 1000 letters
    followed by a space pass. *)
Example predict_padded_text :
  let s := repeat 0x61 1000 ++ [0x20] in
  length s = 1001%nat
  ∧ fst (predict ascii_lower (Some cheerful) (post (VDict {[ lit "text" := VStr s ]})))
    = [Analyze (repeat 0x61 1000)].
Proof. split; vm_compute; reflexivity. Qed.

(** C3 as stated fails on the empty object: it has no 'text' field, and the
    answer is "No JSON data provided", not "No text provided or text is
    empty". *)
Lemma empty_object_answered_no_json :
  let req := post (VDict ∅) in
  (∅ : gmap str value) !! lit "text" = None
  ∧ predict ascii_lower (Some cheerful) req
    = ([], error_response "No JSON data provided" 400)
  ∧ predict ascii_lower (Some cheerful) req
    ≠ ([], error_response "No text provided or text is empty" 400).
Proof.
  split; [reflexivity | split; [reflexivity|]].
  intros H. vm_compute in H. discriminate H.
Qed.

Lemma validation_rejects_before_analysis_witness :
  let d0 : gmap str value := ∅ in
  let d1 : gmap str value := {[ lit "message" := VStr (lit "hello") ]} in
  let d2 : gmap str value := {[ lit "text" := VStr (lit "   ") ]} in
  let d3 : gmap str value := {[ lit "text" := VStr long_text ]} in
  predict ascii_lower (Some cheerful) (post (VDict d0))
    = ([], error_response "No JSON data provided" 400)
  ∧ (d1 ≠ ∅ ∧ d1 !! lit "text" = None
     ∧ predict ascii_lower (Some cheerful) (post (VDict d1))
       = ([], error_response "No text provided or text is empty" 400))
  ∧ (d2 !! lit "text" = Some (VStr (lit "   ")) ∧ strip (lit "   ") = []
     ∧ predict ascii_lower (Some cheerful) (post (VDict d2))
       = ([], error_response "No text provided or text is empty" 400))
  ∧ (d3 !! lit "text" = Some (VStr long_text)
     ∧ (1000 < length (strip long_text))%nat
     ∧ predict ascii_lower (Some cheerful) (post (VDict d3))
       = ([], error_response "Text too long. Please keep it under 1000 characters." 400)).
Proof.
  intros d0 d1 d2 d3.
  assert (N1 : d1 ≠ ∅) by apply map_non_empty_singleton.
  assert (L1 : d1 !! lit "text" = None) by (vm_compute; reflexivity).
  assert (L2 : d2 !! lit "text" = Some (VStr (lit "   "))) by apply lookup_singleton_eq.
  assert (E2 : strip (lit "   ") = []) by (vm_compute; reflexivity).
  assert (L3 : d3 !! lit "text" = Some (VStr long_text))
    by apply lookup_singleton_eq.
  assert (G3 : (1000 < length (strip long_text))%nat) by (vm_compute; lia).
  pose proof (validation_rejects_before_analysis ascii_lower (Some cheerful) d0)
    as (H0 & _).
  pose proof (validation_rejects_before_analysis ascii_lower (Some cheerful) d1)
    as (_ & H1 & _).
  pose proof (validation_rejects_before_analysis ascii_lower (Some cheerful) d2)
    as (_ & _ & H2 & _).
  pose proof (validation_rejects_before_analysis ascii_lower (Some cheerful) d3)
    as (_ & _ & _ & H3).
  split; [exact (H0 eq_refl)|].
  split; [exact (conj N1 (conj L1 (H1 N1 L1)))|].
  split; [exact (conj L2 (conj E2 (H2 _ L2 E2)))|].
  exact (conj L3 (conj G3 (H3 _ L3 G3))).
Defined.

Lemma unavailable_model_gives_500_witness :
  let d : gmap str value := {[ lit "text" := VStr (lit "  I feel great  ") ]} in
  d !! lit "text" = Some (VStr (lit "  I feel great  "))
  ∧ strip (lit "  I feel great  ") ≠ []
  ∧ (length (strip (lit "  I feel great  ")) ≤ 1000)%nat
  ∧ snd (predict ascii_lower None (post (VDict d)))
    = error_response "Sentiment analysis model not available" 500.
Proof.
  intros d.
  assert (L : d !! lit "text" = Some (VStr (lit "  I feel great  ")))
    by apply lookup_singleton_eq.
  assert (N : strip (lit "  I feel great  ") ≠ []) by (by vm_compute).
  assert (G : (length (strip (lit "  I feel great  ")) ≤ 1000)%nat) by (vm_compute; lia).
  split; [exact L | split; [exact N | split; [exact G|]]].
  rewrite (unavailable_model_gives_500 ascii_lower d _ L N G). reflexivity.
Defined.


(** C10 as stated fails on a text that is over-length only as sent: 1000
    letters and a space are 1001 characters, the stripped text passes the
    length check, and with no model the answer is the 500 "Sentiment analysis
    model not available".  It fails too on a body that is not an object: the
    array [[1]] carries no 'text' and is answered 500, not 400. *)
Lemma padded_text_reaches_model_check :
  let s : str := repeat 0x61 1000 ++ [0x20] in
  ((1000 < length s)%nat
   ∧ predict ascii_lower None (post (VDict {[ lit "text" := VStr s ]}))
     = ([], error_response "Sentiment analysis model not available" 500))
  ∧ status (snd (predict ascii_lower None (post (VList [VInt 1])))) = 500.
Proof.
  intros s. split; [split|].
  - vm_compute. lia.
  - vm_compute. reflexivity.
  - vm_compute. reflexivity.
Qed.

Lemma validation_precedes_model_check_witness :
  let d0 : gmap str value := ∅ in
  let d1 : gmap str value := {[ lit "message" := VStr (lit "hello") ]} in
  let d2 : gmap str value := {[ lit "text" := VStr (lit "   ") ]} in
  let d3 : gmap str value := {[ lit "text" := VStr long_text ]} in
  (d0 !! lit "text" = None
   ∧ predict ascii_lower None (post (VDict d0))
     = ([], error_response "No JSON data provided" 400))
  ∧ (d1 !! lit "text" = None
     ∧ predict ascii_lower None (post (VDict d1))
       = ([], error_response "No text provided or text is empty" 400))
  ∧ (d2 !! lit "text" = Some (VStr (lit "   ")) ∧ blank (lit "   ")
     ∧ predict ascii_lower None (post (VDict d2))
       = ([], error_response "No text provided or text is empty" 400))
  ∧ (d3 !! lit "text" = Some (VStr long_text)
     ∧ (1000 < length (strip long_text))%nat
     ∧ predict ascii_lower None (post (VDict d3))
       = ([], error_response "Text too long. Please keep it under 1000 characters." 400)).
Proof.
  intros d0 d1 d2 d3.
  assert (L0 : d0 !! lit "text" = None) by reflexivity.
  assert (L1 : d1 !! lit "text" = None) by (vm_compute; reflexivity).
  assert (L2 : d2 !! lit "text" = Some (VStr (lit "   "))) by apply lookup_singleton_eq.
  assert (E2 : blank (lit "   ")) by (apply strip_nil_iff; vm_compute; reflexivity).
  assert (L3 : d3 !! lit "text" = Some (VStr long_text))
    by apply lookup_singleton_eq.
  assert (G3 : (1000 < length (strip long_text))%nat) by (vm_compute; lia).
  pose proof (validation_precedes_model_check ascii_lower d0) as (H0 & _).
  pose proof (validation_precedes_model_check ascii_lower d1) as (H1 & _).
  pose proof (validation_precedes_model_check ascii_lower d2) as (_ & H2 & _).
  pose proof (validation_precedes_model_check ascii_lower d3) as (_ & _ & H3 & _).
  split; [exact (conj L0 (H0 L0))|].
  split; [split; [exact L1|]|].
  - rewrite (H1 L1). rewrite decide_False by apply map_non_empty_singleton. reflexivity.
  - split; [exact (conj L2 (conj E2 (H2 _ L2 E2)))|].
    exact (conj L3 (conj G3 (H3 _ L3 G3))).
Defined.

(** * Beyond the claims: the rest of the handler and of the module *)

(** ** What [strip] leaves *)

Lemma lstrip_suffix s : ∃ pre, s = pre ++ lstrip s ∧ blank pre.
Proof.
  induction s as [|c s (pre & Hs & Hpre)]; simpl.
  - exists []. split; [reflexivity | constructor].
  - destruct (isspace c) eqn:E.
    + exists (c :: pre). split; [by rewrite Hs at 1 | by constructor].
    + exists []. split; [reflexivity | constructor].
Qed.

Lemma lstrip_head s c r : lstrip s = c :: r → isspace c = false.
Proof.
  induction s as [|a s IH]; simpl; [discriminate|].
  destruct (isspace a) eqn:E; [exact IH|].
  intros H. injection H as <- _. exact E.
Qed.

Lemma rstrip_prefix s : ∃ post, s = rstrip s ++ post ∧ blank post.
Proof.
  unfold rstrip. destruct (lstrip_suffix (rev s)) as (pre & Hs & Hpre).
  exists (rev pre). split; [|by apply blank_rev].
  rewrite <- rev_app_distr, <- Hs. by rewrite rev_involutive.
Qed.

(** [strip] cuts a blank prefix and a blank suffix off the string. *)
Lemma strip_middle s : ∃ pre post, s = pre ++ strip s ++ post ∧ blank pre ∧ blank post.
Proof.
  unfold strip. destruct (lstrip_suffix s) as (pre & Hs & Hpre).
  destruct (rstrip_prefix (lstrip s)) as (post & Hm & Hpost).
  exists pre, post. split; [|done]. by rewrite <- Hm.
Qed.

Lemma strip_length s : (length (strip s) ≤ length s)%nat.
Proof.
  destruct (strip_middle s) as (pre & post & Hs & _).
  rewrite Hs at 2. rewrite !length_app. lia.
Qed.

Lemma strip_trimmed s : trimmed (strip s).
Proof.
  split; intros c r H.
  - unfold strip in H. destruct (rstrip_prefix (lstrip s)) as (post & Hm & _).
    rewrite H in Hm. by apply (lstrip_head s c (r ++ post)).
  - unfold strip, rstrip in H. apply (f_equal (@rev N)) in H.
    rewrite rev_involutive, rev_app_distr in H. simpl in H.
    by apply lstrip_head in H.
Qed.

(** ** Every answer of [predict] *)

Lemma attribute_error_get_not_object (data : value) :
  (∀ d, data ≠ VDict d) →
  get data (lit "text") (VStr (lit "")) = raise (attribute_error data "get").
Proof. intros H. destruct data; try reflexivity. by destruct (H d). Qed.

Lemma strip_method_not_string (v : value) :
  (∀ s, v ≠ VStr s) → strip_method v = raise (attribute_error v "strip").
Proof. intros H. destruct v; try reflexivity. by destruct (H s). Qed.

Section HandlerCases.

Variable lower : str → str.

Implicit Types (analyzer : option (str → analysis)) (d : gmap str value) (s : str).

Lemma predict_preflight analyzer j :
  predict lower analyzer {| method := OPTIONS; get_json := j |} =
    ([], jsonify {[ lit "status" := VStr (lit "OK") ]}).
Proof. reflexivity. Qed.

Lemma predict_unparsable analyzer e :
  predict lower analyzer {| method := POST; get_json := inl e |} =
    ([], exception_response e).
Proof. reflexivity. Qed.

Lemma predict_falsy analyzer data :
  truthy data = false →
  predict lower analyzer (post data) =
    ([], error_response "No JSON data provided" 400).
Proof.
  intros Hf. unfold predict, post, get_json, method.
  rewrite decide_False by done. handler_simpl.
  rewrite Hf. reflexivity.
Qed.

Lemma predict_not_object analyzer data :
  truthy data = true → (∀ d, data ≠ VDict d) →
  predict lower analyzer (post data) =
    ([], exception_response (attribute_error data "get")).
Proof.
  intros Ht Hd. unfold predict, post, get_json, method.
  rewrite decide_False by done. handler_simpl.
  rewrite Ht. cbn [negb]. handler_simpl.
  rewrite (attribute_error_get_not_object data Hd). reflexivity.
Qed.

Lemma predict_not_string analyzer d v :
  d ≠ ∅ → default (VStr (lit "")) (d !! lit "text") = v → (∀ s, v ≠ VStr s) →
  predict lower analyzer (post (VDict d)) =
    ([], exception_response (attribute_error v "strip")).
Proof.
  intros Hd Hv Hs. unfold predict, post, get_json, method, get.
  rewrite decide_False by done. handler_simpl.
  rewrite truthy_dict, bool_decide_eq_true_2 by exact Hd. cbn [negb].
  handler_simpl. rewrite Hv, (strip_method_not_string v Hs). reflexivity.
Qed.

(** The handler always answers in one of the ten ways of [answers]. *)
Lemma predict_answers analyzer req :
  answers lower analyzer req (predict lower analyzer req).
Proof.
  destruct req as [[|] j]; [|rewrite predict_preflight; apply answers_options].
  destruct j as [e|data]; [rewrite predict_unparsable; apply answers_unparsable|].
  change {| method := POST; get_json := inr data |} with (post data).
  destruct (truthy data) eqn:Ht;
    [|rewrite (predict_falsy _ _ Ht); by apply answers_falsy].
  assert (Hobj : (∀ d, data ≠ VDict d) ∨ ∃ d, data = VDict d)
    by (destruct data; eauto; by left).
  destruct Hobj as [Hnd|[d ->]];
    [rewrite (predict_not_object _ _ Ht Hnd); by apply answers_not_object|].
  assert (Hd : d ≠ ∅)
    by (rewrite truthy_dict in Ht; by apply bool_decide_eq_true_1 in Ht).
  destruct (default (VStr (lit "")) (d !! lit "text")) as [| | | |s| |] eqn:Hv;
    try (rewrite (predict_not_string _ _ _ Hd Hv) by done;
         by apply answers_not_string).
  destruct (decide (strip s = [])) as [He|Hne];
    [rewrite (predict_no_text lower _ _ _ Hd Hv He);
     by apply (answers_no_text _ _ d s)|].
  destruct (decide (1000 < length (strip s))%nat) as [Hl|Hl];
    [rewrite (predict_too_long lower _ _ _ Hd Hv Hl);
     by apply (answers_too_long _ _ d s)|].
  apply Nat.nlt_ge in Hl.
  destruct analyzer as [f|].
  - destruct (f (strip s)) as [e|label score] eqn:Hf.
    + rewrite (predict_analyzer_raises lower f _ _ e Hv Hne Hl Hf).
      by apply (answers_failed _ _ f).
    + rewrite (predict_analysed lower f _ _ label score Hv Hne Hl Hf).
      by apply (answers_success _ _ f).
  - rewrite (predict_unavailable lower _ _ Hv Hne Hl).
    by apply (answers_unavailable _ _ d s).
Qed.

End HandlerCases.

Lemma truthy_false_iff (data : value) :
  truthy data = false ↔
  In data [VNone; VBool false; VInt 0; VFloat (S754_zero false);
           VFloat (S754_zero true); VStr []; VList []; VDict ∅].
Proof.
  split.
  - destruct data as [|[]|[]|[[]|[]| |[]]|[]|[]|d]; simpl; try discriminate; auto 10.
    intros H. apply negb_false_iff, Nat.eqb_eq, map_size_empty_iff in H.
    rewrite H. auto 10.
  - simpl. intros [<-|[<-|[<-|[<-|[<-|[<-|[<-|[<-|[]]]]]]]]]; reflexivity.
Qed.

(** ** The exits of [predict] *)

(** X1. A preflight ([OPTIONS]) is answered 200 with status "OK" before
    anything else happens: the body is not parsed (it may not even be JSON)
    and the classifier is not called. *)
Theorem preflight_answered_before_parsing
    (lower : str → str) (analyzer : option (str → analysis)) (req : request) :
  method req = OPTIONS →
  predict lower analyzer req =
    ([], {| body := VDict {[ lit "status" := VStr (lit "OK") ]}; status := 200 |}).
Proof. destruct req as [m j]. simpl. intros ->. reflexivity. Qed.

(** X2. A [POST] whose body is not JSON ends in the [except] clause: it is
    answered 500 (not 400) with the parser's message after "Internal server
    error: ", and the classifier is not called. *)
Theorem unparsable_body_answered_500
    (lower : str → str) (analyzer : option (str → analysis)) (req : request) (e : str) :
  method req = POST →
  get_json req = inl e →
  predict lower analyzer req =
    ([], {| body := VDict {[ lit "error" := VStr (lit "Internal server error: " ++ e);
                             lit "status" := VStr (lit "error") ]};
            status := 500 |}).
Proof. destruct req as [m j]. simpl. intros -> ->. reflexivity. Qed.

(** X3. A [POST] is answered 400 "No JSON data provided" exactly when its
    parsed body is falsy: null, false, 0, 0.0, -0.0, the empty string, the
    empty array or the empty object. *)
Theorem no_json_iff_falsy_body
    (lower : str → str) (analyzer : option (str → analysis)) (data : value) :
  predict lower analyzer (post data)
    = ([], error_response "No JSON data provided" 400)
  ↔ In data [VNone; VBool false; VInt 0; VFloat (S754_zero false);
             VFloat (S754_zero true); VStr []; VList []; VDict ∅].
Proof.
  rewrite <- truthy_false_iff. split; [|apply predict_falsy].
  intros H. destruct (truthy data) eqn:Ht; [exfalso|reflexivity].
  pose proof (predict_answers lower analyzer (post data)) as Hans.
  rewrite H in Hans. clear H.
  inversion Hans; congruence.
Qed.

(** X4. A [POST] whose JSON body is truthy but not an object (a number, a
    string, an array, true) fails on [data.get]: it is answered 500 with the
    [AttributeError] text, and the classifier is not called. *)
Theorem non_object_body_answered_500
    (lower : str → str) (analyzer : option (str → analysis)) (data : value) :
  truthy data = true →
  (∀ d, data ≠ VDict d) →
  predict lower analyzer (post data) =
    ([], exception_response
           (lit "'" ++ type_name data ++ lit "' object has no attribute 'get'")).
Proof.
  intros Ht Hd. rewrite (predict_not_object lower analyzer data Ht Hd).
  unfold attribute_error. by do 3 f_equal.
Qed.

(** X5. A [POST] whose 'text' is present but is not a string (null, a number,
    a boolean, an array, an object) fails on [.strip()]: it is answered 500
    with the [AttributeError] text, and the classifier is not called. *)
Theorem non_string_text_answered_500
    (lower : str → str) (analyzer : option (str → analysis))
    (d : gmap str value) (v : value) :
  d !! lit "text" = Some v →
  (∀ s, v ≠ VStr s) →
  predict lower analyzer (post (VDict d)) =
    ([], exception_response
           (lit "'" ++ type_name v ++ lit "' object has no attribute 'strip'")).
Proof.
  intros Hv Hs.
  assert (Hd : d ≠ ∅) by (intros ->; by rewrite lookup_empty in Hv).
  rewrite (predict_not_string lower analyzer d v Hd); [| by rewrite Hv | exact Hs].
  unfold attribute_error. by do 3 f_equal.
Qed.

(** X6. When the classifier raises on a validated text, the handler answers
    500 with the exception's message after "Internal server error: "; the
    classifier was called once, on the stripped text. *)
Theorem classifier_failure_answered_500
    (lower : str → str) (f : str → analysis) (d : gmap str value) (s e : str) :
  d !! lit "text" = Some (VStr s) →
  strip s ≠ [] →
  (length (strip s) ≤ 1000)%nat →
  f (strip s) = Failed e →
  predict lower (Some f) (post (VDict d)) =
    ([Analyze (strip s)],
     {| body := VDict {[ lit "error" := VStr (lit "Internal server error: " ++ e);
                         lit "status" := VStr (lit "error") ]};
        status := 500 |}).
Proof.
  intros Hs Hne Hlen Hf.
  apply (predict_analyzer_raises lower f d s e); [by rewrite Hs|done..].
Qed.

(** ** Invariants of [predict] *)

(** X7. Whatever the request, the classifier is called at most once, and
    only by a [POST] on a text that has passed the checks: non-empty, at most
    1000 characters, and with no whitespace left at either end. *)
Theorem classifier_called_on_validated_text
    (lower : str → str) (analyzer : option (str → analysis)) (req : request) :
  fst (predict lower analyzer req) = []
  ∨ ∃ f t, analyzer = Some f ∧ method req = POST
           ∧ fst (predict lower analyzer req) = [Analyze t]
           ∧ t ≠ [] ∧ (length t ≤ 1000)%nat ∧ trimmed t.
Proof.
  destruct (predict_answers lower analyzer req)
    as [ | | | | | | | |f d s e Ha Hd Hv Hne Hl Hf|f d s label score Ha Hd Hv Hne Hl Hf];
    [left; reflexivity..| |];
    right; exists f, (strip s);
    (split; [exact Ha|]); (split; [reflexivity|]); (split; [reflexivity|]);
    (split; [exact Hne|]); (split; [exact Hl|]); apply strip_trimmed.
Qed.

(** X8. Every answer of the module has the same outline, whichever function
    produced it: a JSON object with a string 'status'; with code 200 there is
    no 'error' and 'status' is not "error"; otherwise the code is 400, 404 or
    500, 'error' is a string and 'status' is "error". *)
Theorem every_answer_has_api_shape
    (lower : str → str) (analyzer : option (str → analysis)) (req : request) (e : str) :
  api_shape (snd (predict lower analyzer req))
  ∧ api_shape health_check
  ∧ api_shape (not_found e)
  ∧ api_shape (internal_error e).
Proof.
  assert (Herr : ∀ msg code, code = 400 ∨ code = 404 ∨ code = 500 →
            api_shape (with_status (jsonify {[ lit "error" := VStr msg;
                                               lit "status" := VStr (lit "error") ]}) code)).
  { intros msg code Hc. eexists. split; [reflexivity|]. right.
    split; [exact Hc|]. split; [eexists; apply lookup_insert_eq|].
    rewrite lookup_insert_ne by (by vm_compute). apply lookup_singleton_eq. }
  split; [|split; [|split]].
  - destruct (predict_answers lower analyzer req)
      as [ | | | | | | | | |f d s label score Ha Hd Hv Hne Hl Hf]; cbn [snd].
    + eexists. split; [reflexivity|]. left. split; [reflexivity|].
      split; [by vm_compute|]. eexists. split; [apply lookup_singleton_eq|by vm_compute].
    + apply (Herr _ 500). auto.
    + apply (Herr _ 400). auto.
    + apply (Herr _ 500). auto.
    + apply (Herr _ 500). auto.
    + apply (Herr _ 400). auto.
    + apply (Herr _ 400). auto.
    + apply (Herr _ 500). auto.
    + apply (Herr _ 500). auto.
    + unfold success_response. cbv zeta.
      generalize (get_personalized_recommendation lower label score (strip s)).
      intros r. eexists. split; [reflexivity|]. left. split; [reflexivity|].
      split; [by vm_compute|]. eexists. split; [by vm_compute|by vm_compute].
  - eexists. split; [reflexivity|]. left. split; [reflexivity|].
    split; [by vm_compute|]. eexists. split; [by vm_compute|by vm_compute].
  - eexists. split; [reflexivity|]. right. split; [auto|].
    split; [eexists; by vm_compute | by vm_compute].
  - apply (Herr _ 500). auto.
Qed.

(** X9. If loading the model raised when the module was imported, the
    service never calls a classifier and never answers a [POST] with 200. *)
Theorem no_model_no_prediction (lower : str → str) (e : str) (req : request) :
  method req = POST →
  fst (predict lower (load_sentiment_analyzer (inl e)) req) = []
  ∧ status (snd (predict lower (load_sentiment_analyzer (inl e)) req)) ≠ 200.
Proof.
  simpl. intros Hm.
  destruct (predict_answers lower None req);
    try discriminate Hm;
    try match goal with H : None = Some _ |- _ => discriminate H end;
    (split; [reflexivity | discriminate]).
Qed.

(** X10. Of the request only the stripped text matters: two objects whose
    'text' strings agree once stripped get the same answer, whatever else
    the objects contain. *)
Theorem only_stripped_text_matters
    (lower : str → str) (analyzer : option (str → analysis))
    (d1 d2 : gmap str value) (s1 s2 : str) :
  d1 !! lit "text" = Some (VStr s1) →
  d2 !! lit "text" = Some (VStr s2) →
  strip s1 = strip s2 →
  predict lower analyzer (post (VDict d1)) = predict lower analyzer (post (VDict d2)).
Proof.
  intros H1 H2 Hs.
  assert (Hd1 : d1 ≠ ∅) by (intros ->; by rewrite lookup_empty in H1).
  assert (Hd2 : d2 ≠ ∅) by (intros ->; by rewrite lookup_empty in H2).
  assert (Hv1 : default (VStr (lit "")) (d1 !! lit "text") = VStr s1) by (by rewrite H1).
  assert (Hv2 : default (VStr (lit "")) (d2 !! lit "text") = VStr s2) by (by rewrite H2).
  destruct (decide (strip s1 = [])) as [He|Hne].
  { rewrite (predict_no_text lower _ _ _ Hd1 Hv1 He).
    rewrite Hs in He. by rewrite (predict_no_text lower _ _ _ Hd2 Hv2 He). }
  destruct (decide (1000 < length (strip s1))%nat) as [Hl|Hl].
  { rewrite (predict_too_long lower _ _ _ Hd1 Hv1 Hl).
    rewrite Hs in Hl. by rewrite (predict_too_long lower _ _ _ Hd2 Hv2 Hl). }
  apply Nat.nlt_ge in Hl. destruct analyzer as [f|].
  - destruct (f (strip s1)) as [e|label score] eqn:Hf.
    + rewrite (predict_analyzer_raises lower f _ _ e Hv1 Hne Hl Hf).
      rewrite Hs in Hne, Hl, Hf |- *.
      by rewrite (predict_analyzer_raises lower f _ _ e Hv2 Hne Hl Hf).
    + rewrite (predict_analysed lower f _ _ label score Hv1 Hne Hl Hf).
      rewrite Hs in Hne, Hl, Hf |- *.
      by rewrite (predict_analysed lower f _ _ label score Hv2 Hne Hl Hf).
  - rewrite (predict_unavailable lower _ _ Hv1 Hne Hl).
    rewrite Hs in Hne, Hl. by rewrite (predict_unavailable lower _ _ Hv2 Hne Hl).
Qed.

(** X11. A validation error does not depend on the model: a request that is
    answered 400 with one classifier (or none) gets the very same answer with
    any other. *)
Theorem validation_errors_ignore_the_model
    (lower1 lower2 : str → str) (a1 a2 : option (str → analysis)) (req : request) :
  status (snd (predict lower1 a1 req)) = 400 →
  predict lower2 a2 req = predict lower1 a1 req.
Proof.
  intros H400. remember (predict lower1 a1 req) as out eqn:Eout.
  pose proof (predict_answers lower1 a1 req) as Hans. rewrite <- Eout in Hans.
  clear Eout. destruct Hans; try discriminate H400.
  - by apply predict_falsy.
  - by eapply predict_no_text.
  - by eapply predict_too_long.
Qed.

(** X12. For an object whose 'text' is a string or is absent, the answer is
    a 400 exactly when the text is blank or, once stripped, longer than 1000
    characters. *)
Theorem rejected_iff_blank_or_too_long
    (lower : str → str) (analyzer : option (str → analysis))
    (d : gmap str value) (s : str) :
  default (VStr (lit "")) (d !! lit "text") = VStr s →
  status (snd (predict lower analyzer (post (VDict d)))) = 400
  ↔ blank s ∨ (1000 < length (strip s))%nat.
Proof.
  intros Hv. split.
  - intros H400.
    destruct (decide (strip s = [])) as [He|Hne]; [left; by apply strip_nil_iff|].
    destruct (decide (1000 < length (strip s))%nat) as [Hl|Hl]; [by right|].
    exfalso. apply Nat.nlt_ge in Hl. destruct analyzer as [f|].
    + destruct (f (strip s)) as [e|label score] eqn:Hf.
      * rewrite (predict_analyzer_raises lower f _ _ e Hv Hne Hl Hf) in H400.
        discriminate H400.
      * rewrite (predict_analysed lower f _ _ label score Hv Hne Hl Hf) in H400.
        discriminate H400.
    + rewrite (predict_unavailable lower _ _ Hv Hne Hl) in H400. discriminate H400.
  - destruct (decide (d = ∅)) as [->|Hd]; [by rewrite predict_empty_object|].
    intros [Hb|Hl].
    + apply strip_nil_iff in Hb. by rewrite (predict_no_text lower _ _ _ Hd Hv Hb).
    + by rewrite (predict_too_long lower _ _ _ Hd Hv Hl).
Qed.

(** X13. A text that is not blank and has at most 1000 characters as sent is
    never rejected: stripping can only shorten it. *)
Theorem sized_text_is_not_rejected
    (lower : str → str) (analyzer : option (str → analysis))
    (d : gmap str value) (s : str) :
  d !! lit "text" = Some (VStr s) →
  ¬ blank s →
  (length s ≤ 1000)%nat →
  status (snd (predict lower analyzer (post (VDict d)))) ≠ 400.
Proof.
  intros Hs Hnb Hlen.
  assert (Hv : default (VStr (lit "")) (d !! lit "text") = VStr s) by (by rewrite Hs).
  assert (Hne : strip s ≠ []) by (intros He; by apply Hnb, strip_nil_iff).
  assert (Hl : (length (strip s) ≤ 1000)%nat) by (pose proof (strip_length s); lia).
  destruct analyzer as [f|].
  - destruct (f (strip s)) as [e|label score] eqn:Hf.
    + by rewrite (predict_analyzer_raises lower f _ _ e Hv Hne Hl Hf).
    + by rewrite (predict_analysed lower f _ _ label score Hv Hne Hl Hf).
  - by rewrite (predict_unavailable lower _ _ Hv Hne Hl).
Qed.

(** ** The selector, and the handler with it *)

Lemma select_in_table (lower : str → str) (sentiment : str) (c : spec_float) (text : str) :
  In (get_personalized_recommendation lower sentiment c text) decision_table.
Proof.
  unfold get_personalized_recommendation. cbv zeta.
  destruct (decide (sentiment = lit "POSITIVE")) as [HP|HP];
    [destruct (float_gt c float_0_9)
    |destruct (decide (sentiment = lit "NEGATIVE")) as [HN|HN];
      [destruct (any _ [lit "anxious"; _; _; _]);
        [|destruct (any _ [lit "sad"; _; _; _]);
          [|destruct (any _ [lit "angry"; _; _; _])]]|]];
    vm_compute; repeat first [left; reflexivity | right].
Qed.

Lemma table_shape :
  Forall (λ r, message r ≠ [] ∧ ∃ t1 t2 t3 t4, tips r = [t1; t2; t3; t4]) decision_table.
Proof.
  unfold decision_table.
  repeat (constructor;
          [split; [by vm_compute | vm_compute; by eexists _, _, _, _]|]).
  constructor.
Qed.


(** X14. A 200 answer to a [POST] always carries a prediction: the
    classifier was called exactly once, 'recommendation' is a non-empty
    string and 'additional_tips' a list of exactly four strings, and the two
    together are one of the seven entries of the decision table. *)
Theorem success_carries_a_table_entry
    (lower : str → str) (analyzer : option (str → analysis)) (req : request) :
  method req = POST →
  status (snd (predict lower analyzer req)) = 200 →
  ∃ (fields : gmap str value) (text msg t1 t2 t3 t4 : str),
    fst (predict lower analyzer req) = [Analyze text]
    ∧ body (snd (predict lower analyzer req)) = VDict fields
    ∧ fields !! lit "recommendation" = Some (VStr msg)
    ∧ msg ≠ []
    ∧ fields !! lit "additional_tips" = Some (VList [VStr t1; VStr t2; VStr t3; VStr t4])
    ∧ In {| message := msg; tips := [t1; t2; t3; t4] |} decision_table.
Proof.
  intros Hm H200.
  destruct (predict_answers lower analyzer req); try discriminate.
  unfold success_response. cbv zeta.
  pose proof (select_in_table lower label score (strip s)) as Hin.
  destruct (proj1 (List.Forall_forall _ _) table_shape _ Hin)
    as (Hmsg & t1 & t2 & t3 & t4 & Htips).
  revert Hin Hmsg Htips.
  generalize (get_personalized_recommendation lower label score (strip s)).
  intros [msg tps]. simpl. intros Hin Hmsg ->.
  eexists _, (strip s), msg, t1, t2, t3, t4.
  split; [reflexivity|]. split; [reflexivity|].
  split; [by vm_compute|]. split; [exact Hmsg|]. split; [by vm_compute|exact Hin].
Qed.

(** X15. Each input of the selector matters on one label only: the
    confidence on 'POSITIVE', the text on 'NEGATIVE'. *)
Theorem each_input_matters_on_one_label
    (lower : str → str) (sentiment : str) (c1 c2 : spec_float) (text1 text2 : str) :
  (sentiment ≠ lit "POSITIVE" →
     get_personalized_recommendation lower sentiment c1 text1
     = get_personalized_recommendation lower sentiment c2 text1)
  ∧ (sentiment ≠ lit "NEGATIVE" →
     get_personalized_recommendation lower sentiment c1 text1
     = get_personalized_recommendation lower sentiment c1 text2).
Proof.
  unfold get_personalized_recommendation. split; intros H.
  - rewrite !(decide_False (P := sentiment = lit "POSITIVE")) by exact H.
    reflexivity.
  - destruct (decide (sentiment = lit "POSITIVE")); [reflexivity|].
    rewrite !(decide_False (P := sentiment = lit "NEGATIVE")) by exact H.
    reflexivity.
Qed.


(** ** The extra properties on concrete requests *)

Lemma preflight_answered_before_parsing_witness :
  let req := {| method := OPTIONS; get_json := inl (lit "not JSON") |} in
  method req = OPTIONS
  ∧ predict ascii_lower (Some broken) req
    = ([], {| body := VDict {[ lit "status" := VStr (lit "OK") ]}; status := 200 |}).
Proof.
  intros req. split; [reflexivity|].
  exact (preflight_answered_before_parsing ascii_lower (Some broken) req eq_refl).
Defined.

Lemma unparsable_body_answered_500_witness :
  let req := {| method := POST; get_json := inl (lit "400 Bad Request") |} in
  method req = POST ∧ get_json req = inl (lit "400 Bad Request")
  ∧ fst (predict ascii_lower (Some cheerful) req) = []
  ∧ status (snd (predict ascii_lower (Some cheerful) req)) = 500.
Proof.
  intros req. split; [reflexivity|]. split; [reflexivity|].
  rewrite (unparsable_body_answered_500 ascii_lower (Some cheerful) req
             (lit "400 Bad Request") eq_refl eq_refl).
  split; reflexivity.
Defined.

Lemma non_object_body_answered_500_witness :
  let data := VList [VInt 1] in
  truthy data = true ∧ (∀ d, data ≠ VDict d)
  ∧ predict ascii_lower (Some cheerful) (post data)
    = ([], exception_response (lit "'list' object has no attribute 'get'")).
Proof.
  intros data.
  assert (Hd : ∀ d, data ≠ VDict d) by (intros d; discriminate).
  split; [reflexivity|]. split; [exact Hd|].
  rewrite (non_object_body_answered_500 ascii_lower (Some cheerful) data eq_refl Hd).
  vm_compute. reflexivity.
Defined.

Lemma non_string_text_answered_500_witness :
  let d : gmap str value := {[ lit "text" := VNone ]} in
  d !! lit "text" = Some VNone ∧ (∀ s, VNone ≠ VStr s)
  ∧ predict ascii_lower (Some cheerful) (post (VDict d))
    = ([], exception_response (lit "'NoneType' object has no attribute 'strip'")).
Proof.
  intros d.
  assert (L : d !! lit "text" = Some VNone) by apply lookup_singleton_eq.
  assert (Hs : ∀ s, VNone ≠ VStr s) by (intros s; discriminate).
  split; [exact L|]. split; [exact Hs|].
  rewrite (non_string_text_answered_500 ascii_lower (Some cheerful) d VNone L Hs).
  vm_compute. reflexivity.
Defined.

Lemma classifier_failure_answered_500_witness :
  let d : gmap str value := {[ lit "text" := VStr (lit "  I feel great  ") ]} in
  let s := lit "  I feel great  " in
  (d !! lit "text" = Some (VStr s) ∧ strip s ≠ [] ∧ (length (strip s) ≤ 1000)%nat
   ∧ broken (strip s) = Failed (lit "out of memory"))
  ∧ fst (predict ascii_lower (Some broken) (post (VDict d))) = [Analyze (lit "I feel great")]
  ∧ status (snd (predict ascii_lower (Some broken) (post (VDict d)))) = 500.
Proof.
  intros d s.
  assert (L : d !! lit "text" = Some (VStr s)) by apply lookup_singleton_eq.
  assert (N : strip s ≠ []) by (by vm_compute).
  assert (G : (length (strip s) ≤ 1000)%nat) by (vm_compute; lia).
  split; [repeat split; assumption|].
  rewrite (classifier_failure_answered_500 ascii_lower broken d s _ L N G eq_refl).
  split; reflexivity.
Defined.

Lemma no_model_no_prediction_witness :
  let req := post (VDict {[ lit "text" := VStr (lit "I feel great") ]}) in
  method req = POST
  ∧ fst (predict ascii_lower (load_sentiment_analyzer (inl (lit "no network"))) req) = []
  ∧ status (snd (predict ascii_lower (load_sentiment_analyzer (inl (lit "no network"))) req))
    ≠ 200.
Proof.
  intros req. split; [reflexivity|].
  exact (no_model_no_prediction ascii_lower (lit "no network") req eq_refl).
Defined.

Lemma only_stripped_text_matters_witness :
  let d1 : gmap str value := {[ lit "text" := VStr (lit "  hi  "); lit "user" := VInt 7 ]} in
  let d2 : gmap str value := {[ lit "text" := VStr (lit "hi") ]} in
  d1 !! lit "text" = Some (VStr (lit "  hi  "))
  ∧ d2 !! lit "text" = Some (VStr (lit "hi"))
  ∧ strip (lit "  hi  ") = strip (lit "hi")
  ∧ predict ascii_lower (Some cheerful) (post (VDict d1))
    = predict ascii_lower (Some cheerful) (post (VDict d2)).
Proof.
  intros d1 d2.
  assert (L1 : d1 !! lit "text" = Some (VStr (lit "  hi  "))) by apply lookup_insert_eq.
  assert (L2 : d2 !! lit "text" = Some (VStr (lit "hi"))) by apply lookup_singleton_eq.
  assert (S : strip (lit "  hi  ") = strip (lit "hi")) by (vm_compute; reflexivity).
  split; [exact L1|]. split; [exact L2|]. split; [exact S|].
  exact (only_stripped_text_matters ascii_lower (Some cheerful) d1 d2 _ _ L1 L2 S).
Defined.

Lemma validation_errors_ignore_the_model_witness :
  let req := post (VDict {[ lit "text" := VStr (lit "   ") ]}) in
  status (snd (predict ascii_lower None req)) = 400
  ∧ predict ascii_lower (Some cheerful) req = predict ascii_lower None req.
Proof.
  intros req.
  assert (H : status (snd (predict ascii_lower None req)) = 400) by (vm_compute; reflexivity).
  split; [exact H|].
  exact (validation_errors_ignore_the_model ascii_lower ascii_lower None (Some cheerful) req H).
Defined.

Lemma rejected_iff_blank_or_too_long_witness :
  let d : gmap str value := {[ lit "text" := VStr long_text ]} in
  default (VStr (lit "")) (d !! lit "text") = VStr long_text
  ∧ (1000 < length (strip long_text))%nat
  ∧ status (snd (predict ascii_lower (Some cheerful) (post (VDict d)))) = 400.
Proof.
  intros d.
  assert (L : default (VStr (lit "")) (d !! lit "text") = VStr long_text)
    by (unfold d; by rewrite lookup_singleton_eq).
  assert (G : (1000 < length (strip long_text))%nat) by (vm_compute; lia).
  split; [exact L|]. split; [exact G|].
  exact (proj2 (rejected_iff_blank_or_too_long ascii_lower (Some cheerful) d long_text L)
           (or_intror G)).
Defined.

Lemma sized_text_is_not_rejected_witness :
  let d : gmap str value := {[ lit "text" := VStr (lit " I feel great ") ]} in
  d !! lit "text" = Some (VStr (lit " I feel great "))
  ∧ ¬ blank (lit " I feel great ")
  ∧ (length (lit " I feel great ") ≤ 1000)%nat
  ∧ status (snd (predict ascii_lower None (post (VDict d)))) ≠ 400.
Proof.
  intros d.
  assert (L : d !! lit "text" = Some (VStr (lit " I feel great ")))
    by apply lookup_singleton_eq.
  assert (B : ¬ blank (lit " I feel great "))
    by (intros H; apply strip_nil_iff in H; vm_compute in H; discriminate H).
  assert (G : (length (lit " I feel great ") ≤ 1000)%nat) by (vm_compute; lia).
  split; [exact L|]. split; [exact B|]. split; [exact G|].
  exact (sized_text_is_not_rejected ascii_lower None d _ L B G).
Defined.

Lemma success_carries_a_table_entry_witness :
  let req := post (VDict {[ lit "text" := VStr (lit "I feel great") ]}) in
  method req = POST
  ∧ status (snd (predict ascii_lower (Some cheerful) req)) = 200
  ∧ ∃ (fields : gmap str value) (text msg t1 t2 t3 t4 : str),
      fst (predict ascii_lower (Some cheerful) req) = [Analyze text]
      ∧ body (snd (predict ascii_lower (Some cheerful) req)) = VDict fields
      ∧ fields !! lit "recommendation" = Some (VStr msg)
      ∧ msg ≠ []
      ∧ fields !! lit "additional_tips" = Some (VList [VStr t1; VStr t2; VStr t3; VStr t4])
      ∧ In {| message := msg; tips := [t1; t2; t3; t4] |} decision_table.
Proof.
  intros req.
  assert (H : status (snd (predict ascii_lower (Some cheerful) req)) = 200)
    by (vm_compute; reflexivity).
  split; [reflexivity|]. split; [exact H|].
  exact (success_carries_a_table_entry ascii_lower (Some cheerful) req eq_refl H).
Defined.

Lemma each_input_matters_on_one_label_witness :
  (lit "NEGATIVE" ≠ lit "POSITIVE"
   ∧ get_personalized_recommendation ascii_lower (lit "NEGATIVE") (S754_zero false) (lit "so sad")
     = get_personalized_recommendation ascii_lower (lit "NEGATIVE") (S754_infinity false)
         (lit "so sad"))
  ∧ (lit "NEUTRAL" ≠ lit "NEGATIVE"
     ∧ get_personalized_recommendation ascii_lower (lit "NEUTRAL") float_0_9 (lit "so sad")
       = get_personalized_recommendation ascii_lower (lit "NEUTRAL") float_0_9
           (lit "so anxious")).
Proof.
  assert (H1 : lit "NEGATIVE" ≠ lit "POSITIVE") by (by vm_compute).
  assert (H2 : lit "NEUTRAL" ≠ lit "NEGATIVE") by (by vm_compute).
  split; (split; [assumption|]).
  - exact (proj1 (each_input_matters_on_one_label ascii_lower (lit "NEGATIVE")
                    (S754_zero false) (S754_infinity false) (lit "so sad") []) H1).
  - exact (proj2 (each_input_matters_on_one_label ascii_lower (lit "NEUTRAL")
                    float_0_9 float_0_9 (lit "so sad") (lit "so anxious")) H2).
Defined.


(** ** A prediction from end to end *)

(** X17. When the classifier labels a validated text 'POSITIVE', the
    recommendation in the answer depends on the score alone: above 0.9 it is
    the "radiating positive energy" message, otherwise the "feeling good"
    one, whatever the text says. *)
Theorem positive_prediction_end_to_end
    (lower : str → str) (f : str → analysis) (d : gmap str value) (s : str)
    (score : spec_float) :
  d !! lit "text" = Some (VStr s) →
  strip s ≠ [] →
  (length (strip s) ≤ 1000)%nat →
  f (strip s) = Labelled (lit "POSITIVE") score →
  ∃ fields : gmap str value,
    predict lower (Some f) (post (VDict d))
      = ([Analyze (strip s)], {| body := VDict fields; status := 200 |})
    ∧ fields !! lit "recommendation" =
        Some (VStr (if float_gt score float_0_9
                    then lit "🌟 You're radiating positive energy! This is wonderful to see."
                    else lit "😊 You seem to be feeling good! Let's build on these positive vibes.")).
Proof.
  intros Hs Hne Hlen Hf. eexists. split.
  - apply (predict_analysed lower f d s); [by rewrite Hs|done..].
  - rewrite lookup_insert_ne by (by vm_compute). rewrite lookup_insert_eq.
    rewrite select_positive.
    destruct (float_gt score float_0_9); vm_compute; reflexivity.
Qed.

Lemma positive_prediction_end_to_end_witness :
  let d : gmap str value := {[ lit "text" := VStr (lit " so sad and anxious ") ]} in
  let s := lit " so sad and anxious " in
  (d !! lit "text" = Some (VStr s) ∧ strip s ≠ [] ∧ (length (strip s) ≤ 1000)%nat
   ∧ cheerful (strip s) = Labelled (lit "POSITIVE") (S754_finite false 8556839292003942 (-53)))
  ∧ ∃ fields : gmap str value,
      predict ascii_lower (Some cheerful) (post (VDict d))
        = ([Analyze (strip s)], {| body := VDict fields; status := 200 |})
      ∧ fields !! lit "recommendation"
        = Some (VStr (lit "🌟 You're radiating positive energy! This is wonderful to see.")).
Proof.
  intros d s.
  assert (L : d !! lit "text" = Some (VStr s)) by apply lookup_singleton_eq.
  assert (N : strip s ≠ []) by (by vm_compute).
  assert (G : (length (strip s) ≤ 1000)%nat) by (vm_compute; lia).
  split; [repeat split; assumption|].
  destruct (positive_prediction_end_to_end ascii_lower cheerful d s _ L N G eq_refl)
    as (fields & Hp & Hr).
  exists fields. split; [exact Hp|]. rewrite Hr. vm_compute. reflexivity.
Defined.
